(** * ChessBoard: algebraic notation, piece moves, one-hot vectors, distances

    A shallow embedding of the class [ChessBoard] of
    [src/chess/chess_board.py].  Python integers are [Z]; a Python string is a
    [string], a one-character string an [ascii] (a code point below 256);
    a Python list is a [list]; a NumPy [float64] is a primitive [float].
    An exception raised by the interpreter is an explicit result [Raise e]. *)

From Stdlib Require Import ZArith Lia Bool String Ascii DecimalString Floats Uint63.
From stdpp Require Import base tactics option list strings.

Local Open Scope Z_scope.

(** ** The Python run time the class relies on *)

Inductive exn : Type :=
| IndexError
| ValueError.

Inductive result (A : Type) : Type :=
| Ok (a : A)
| Raise (e : exn).

Arguments Ok {A} a.
Arguments Raise {A} e.

(** Sequencing: the first exception raised ends the computation.  The
    notation [x ← c; k] is stdpp's, through [MBind]. *)
#[global] Instance result_bind : MBind result := fun A B k c =>
  match c with
  | Ok a => k a
  | Raise e => Raise e
  end.

Definition raises {A : Type} (c : result A) : Prop := exists e, c = Raise e.

Definition returns {A : Type} (c : result A) : Prop := exists a, c = Ok a.

(** [for x in xs: body], the loop state threaded through the iterations. *)
Fixpoint for_each {A S : Type} (xs : list A) (body : A -> S -> result S) (s : S)
  : result S :=
  match xs with
  | [] => Ok s
  | x :: xs' => s' ← body x s; for_each xs' body s'
  end.

(** [range(n)]. *)
Definition range (n : nat) : list Z := seqZ 0 (Z.of_nat n).

(** [s[i]] for a string and a literal index [i >= 0]. *)
Definition str_getitem (s : string) (i : nat) : result ascii :=
  match String.get i s with
  | Some c => Ok c
  | None => Raise IndexError
  end.

(** [l[i]] for a list: a negative index counts from the end. *)
Definition list_getitem {A : Type} (l : list A) (i : Z) : result A :=
  let n := Z.of_nat (length l) in
  let k := if i <? 0 then i + n else i in
  if (0 <=? k) && (k <? n) then
    match l !! Z.to_nat k with
    | Some x => Ok x
    | None => Raise IndexError
    end
  else Raise IndexError.

(** [l[i] = x] for a list or a one-dimensional array. *)
Definition list_setitem {A : Type} (l : list A) (i : Z) (x : A) : result (list A) :=
  let n := Z.of_nat (length l) in
  let k := if i <? 0 then i + n else i in
  if (0 <=? k) && (k <? n) then Ok (<[Z.to_nat k := x]> l) else Raise IndexError.

(** [l.index(x)] on a list of one-character strings. *)
Fixpoint list_index (l : list ascii) (x : ascii) : result Z :=
  match l with
  | [] => Raise ValueError
  | y :: l' => if Ascii.eqb y x then Ok 0 else (n ← list_index l' x; Ok (n + 1))
  end.

Definition code (c : ascii) : Z := Z.of_N (N_of_ascii c).

(** [int(c)] for a one-character string [c] whose code point is below 256:
    there the decimal digits are ['0'..'9'], and every other character is a
    [ValueError].  [int] also converts the decimal digits of other scripts,
    which a [string] cannot hold: [int_of_code] below is [int] on every code
    point. *)
Definition int_of_char (c : ascii) : result Z :=
  if (48 <=? code c) && (code c <=? 57) then Ok (code c - 48) else Raise ValueError.

(** [str(n)], which is also how an f-string formats an integer. *)
Definition str_of_int (n : Z) : string := NilZero.string_of_int (Z.to_int n).

(** Case of a code point below 256, as [str.isupper], [str.islower] and
    [str.lower] see it. *)
Definition char_isupper (c : ascii) : bool :=
  let n := code c in
  ((65 <=? n) && (n <=? 90)) || ((192 <=? n) && (n <=? 222) && negb (n =? 215)).

Definition char_islower (c : ascii) : bool :=
  let n := code c in
  ((97 <=? n) && (n <=? 122)) || ((223 <=? n) && (n <=? 255) && negb (n =? 247))
  || (n =? 170) || (n =? 181) || (n =? 186).

Definition char_lower (c : ascii) : ascii :=
  if char_isupper c then ascii_of_N (N_of_ascii c + 32) else c.

Fixpoint str_any (p : ascii -> bool) (s : string) : bool :=
  match s with
  | EmptyString => false
  | String c s' => p c || str_any p s'
  end.

Fixpoint str_lower (s : string) : string :=
  match s with
  | EmptyString => EmptyString
  | String c s' => String (char_lower c) (str_lower s')
  end.

Definition str_isupper (s : string) : bool :=
  negb (str_any char_islower s) && str_any char_isupper s.

Definition str_islower (s : string) : bool :=
  negb (str_any char_isupper s) && str_any char_islower s.

(** [np.zeros(n)] and [np.zeros((n, m))]. *)
Definition np_zeros (n : nat) : list float := replicate n 0%float.

Definition np_zeros2 (n m : nat) : list (list float) := replicate n (np_zeros m).

(** [a[i, j] = x] for a two-dimensional array. *)
Definition np_setitem2 (a : list (list float)) (i j : Z) (x : float)
  : result (list (list float)) :=
  r ← list_getitem a i;
  r' ← list_setitem r j x;
  list_setitem a i r'.

(** [np.sqrt(n)] for a Python integer [n >= 0]: the integer becomes a
    [float64], then the correctly rounded square root. *)
Definition np_sqrt (n : Z) : float := PrimFloat.sqrt (PrimFloat.of_uint63 (Uint63.of_Z n)).

(** ** The class *)

Record ChessBoard : Type := mkChessBoard {
  board : list (list Z);
  files : list ascii;
  ranks : list ascii
}.

Definition _initialize_board : list (list Z) := replicate 8 (replicate 8 0).

Definition __init__ : ChessBoard :=
  {| board := _initialize_board;
     files := ["a"; "b"; "c"; "d"; "e"; "f"; "g"; "h"]%char;
     ranks := ["8"; "7"; "6"; "5"; "4"; "3"; "2"; "1"]%char |}.

Definition algebraic_to_coordinates (self : ChessBoard) (square : string)
  : result (Z * Z) :=
  file ← str_getitem square 0;
  rank ← str_getitem square 1;
  file_idx ← list_index (files self) file;
  n ← int_of_char rank;
  let rank_idx := 8 - n - 1 in
  Ok (rank_idx, file_idx).

Definition coordinates_to_algebraic (self : ChessBoard) (row col : Z) : result string :=
  let rank := 8 - row - 1 in
  f ← list_getitem (files self) col;
  Ok (String f (str_of_int rank)).

(** The test [0 <= x < 8] of the move branches. *)
Definition on_board (x : Z) : bool := (0 <=? x) && (x <? 8).

(** [moves.append(self.coordinates_to_algebraic(row, col))]. *)
Definition append_square (self : ChessBoard) (row col : Z) (moves : list string)
  : result (list string) :=
  sq ← coordinates_to_algebraic self row col; Ok (moves ++ [sq]).

(** The branches of the [if]/[elif] chain of [get_piece_moves], each from
    the empty list [moves] and the parsed origin [(row, col)]. *)
Definition pawn_moves (self : ChessBoard) (piece : string) (row col : Z)
  : result (list string) :=
  let direction := if str_isupper piece then -1 else 1 in
  let new_row := row + direction in
  moves ← (if on_board new_row then append_square self new_row col [] else Ok []);
  if (str_isupper piece && (row =? 6)) || (str_islower piece && (row =? 1)) then
    let new_row := row + 2 * direction in
    if on_board new_row then append_square self new_row col moves else Ok moves
  else Ok moves.

Definition rook_moves (self : ChessBoard) (row col : Z) : result (list string) :=
  for_each (range 8) (fun i moves =>
    moves ← (if negb (i =? row) then append_square self i col moves else Ok moves);
    if negb (i =? col) then append_square self row i moves else Ok moves) [].

Definition knight_offsets : list (Z * Z) :=
  [(-2, -1); (-2, 1); (-1, -2); (-1, 2); (1, -2); (1, 2); (2, -1); (2, 1)].

Definition knight_moves (self : ChessBoard) (row col : Z) : result (list string) :=
  for_each knight_offsets (fun '(dr, dc) moves =>
    let new_row := row + dr in
    let new_col := col + dc in
    if on_board new_row && on_board new_col
    then append_square self new_row new_col moves else Ok moves) [].

Definition bishop_moves (self : ChessBoard) (row col : Z) : result (list string) :=
  for_each (range 8) (fun i moves =>
    for_each (range 8) (fun j moves =>
      if (Z.abs (i - row) =? Z.abs (j - col)) && (negb (i =? row) || negb (j =? col))
      then append_square self i j moves else Ok moves) moves) [].

Definition king_moves (self : ChessBoard) (row col : Z) : result (list string) :=
  for_each [-1; 0; 1] (fun dr moves =>
    for_each [-1; 0; 1] (fun dc moves =>
      if (dr =? 0) && (dc =? 0) then Ok moves
      else
        let new_row := row + dr in
        let new_col := col + dc in
        if on_board new_row && on_board new_col
        then append_square self new_row new_col moves else Ok moves) moves) [].

(** [get_piece_moves] calls itself in the Queen branch; [fuel] bounds the
    depth of those calls and [None] means that the bound was reached. *)
Fixpoint get_piece_moves_fuel (fuel : nat) (self : ChessBoard) (piece position : string)
  : option (result (list string)) :=
  match fuel with
  | O => None
  | S fuel' =>
    match algebraic_to_coordinates self position with
    | Raise e => Some (Raise e)
    | Ok (row, col) =>
      let kind := str_lower piece in
      if String.eqb kind "p" then Some (pawn_moves self piece row col)
      else if String.eqb kind "r" then Some (rook_moves self row col)
      else if String.eqb kind "n" then Some (knight_moves self row col)
      else if String.eqb kind "b" then Some (bishop_moves self row col)
      else if String.eqb kind "q" then
        match get_piece_moves_fuel fuel' self "r" position with
        | None => None
        | Some (Raise e) => Some (Raise e)
        | Some (Ok rook) =>
          match get_piece_moves_fuel fuel' self "b" position with
          | None => None
          | Some (Raise e) => Some (Raise e)
          | Some (Ok bishop) => Some (Ok (([] ++ rook) ++ bishop))
          end
        end
      else if String.eqb kind "k" then Some (king_moves self row col)
      else Some (Ok [])
    end
  end.

(** The Queen branch calls the Rook and Bishop branches, which call nothing:
    depth two is all the method ever uses
    (see [get_piece_moves_fuel_enough]). *)
Definition get_piece_moves (self : ChessBoard) (piece position : string)
  : option (result (list string)) :=
  get_piece_moves_fuel 2 self piece position.

Definition get_vector_representation (self : ChessBoard) (position : string)
  : result (list float) :=
  '(row, col) ← algebraic_to_coordinates self position;
  let vector := np_zeros 64 in
  list_setitem vector (row * 8 + col) 1%float.

Definition get_distance_matrix (self : ChessBoard) : result (list (list float)) :=
  for_each (range 64) (fun i distances =>
    for_each (range 64) (fun j distances =>
      let row1 := i / 8 in
      let col1 := i mod 8 in
      let row2 := j / 8 in
      let col2 := j mod 8 in
      np_setitem2 distances i j (np_sqrt ((row1 - row2) ^ 2 + (col1 - col2) ^ 2)))
      distances) (np_zeros2 64 64).

(** ** The vocabulary of the specification *)

(** A file letter ['a'..'h'], a rank digit ['1'..'8'], a decimal digit. *)
Definition is_file (c : ascii) : bool := (97 <=? code c) && (code c <=? 104).

Definition is_rank (c : ascii) : bool := (49 <=? code c) && (code c <=? 56).

Definition is_digit (c : ascii) : bool := (48 <=? code c) && (code c <=? 57).

(** A well-formed square: exactly two characters, a file letter then a rank
    digit. *)
Definition valid_square (s : string) : bool :=
  match s with
  | String f (String r EmptyString) => is_file f && is_rank r
  | _ => false
  end.

(** What the parser accepts: at least two characters, a file letter then a
    decimal digit. *)
Definition parses (s : string) : bool :=
  match s with
  | String f (String r _) => is_file f && is_digit r
  | _ => false
  end.

(** A piece code the dispatch of [get_piece_moves] knows, whatever its case. *)
Definition known_kind (piece : string) : Prop :=
  str_lower piece ∈ ["p"; "r"; "n"; "b"; "q"; "k"]%string.

(** Entry [(i, j)] of a matrix held as a list of rows. *)
Definition entry (m : list (list float)) (i j : Z) : option float :=
  row ← m !! Z.to_nat i; row !! Z.to_nat j.

(** The squared distance between squares [i] and [j], with
    [row_k = k div 8] and [col_k = k mod 8], and the table of the distances. *)
Definition squared_distance (i j : Z) : Z :=
  (i / 8 - j / 8) ^ 2 + (i mod 8 - j mod 8) ^ 2.

Definition distance_table : list (list float) :=
  (fun i => (fun j => np_sqrt (squared_distance i j)) <$> range 64) <$> range 64.

(** [7 * np.sqrt(2)] in [float64] arithmetic. *)
Definition seven_sqrt2 : float := (7 * PrimFloat.sqrt 2)%float.

(** ** The rest of the class and a caller *)

Definition get_square_color (self : ChessBoard) (row col : Z) : string :=
  if (row + col) mod 2 =? 0 then "light" else "dark".

(** The table of distances from ["e4"] that [create_distance_heatmap] of
    [src/chess/chess_visualization.py] builds before it draws it (the same
    loop is in [create_animated_distance_heatmap] of
    [src/chess/chess_animations.py]); the plotting calls around the loop are
    not modelled. *)
Definition heatmap_distances : result (list (list float)) :=
  let board := __init__ in
  let start_square := "e4"%string in
  start_coords ← algebraic_to_coordinates board start_square;
  for_each (range 8) (fun i distances =>
    for_each (range 8) (fun j distances =>
      square ← coordinates_to_algebraic board i j;
      end_coords ← algebraic_to_coordinates board square;
      let dx := end_coords.2 - start_coords.2 in
      let dy := end_coords.1 - start_coords.1 in
      np_setitem2 distances i j (np_sqrt (dx ^ 2 + dy ^ 2))) distances)
    (np_zeros2 8 8).

(** ** Checking the move branches origin by origin *)

(** The pairs the parser can return: a row of [-2..7] and a column of
    [0..7] (see [algebraic_to_coordinates_Ok_inv]). *)
Definition origins : list (Z * Z) := list_prod (seqZ (-2) 10) (seqZ 0 8).

(** Every square of [moves] parses to a pair that satisfies [p]. *)
Definition check_sound (p : Z -> Z -> bool) (moves : list string) : bool :=
  forallb (fun sq =>
    match algebraic_to_coordinates __init__ sq with
    | Ok (i, j) => p i j
    | Raise _ => false
    end) moves.

(** Every pair of [origins] that satisfies [p] is printed to a square of
    [moves]. *)
Definition check_complete (p : Z -> Z -> bool) (moves : list string) : bool :=
  forallb (fun ij =>
    implb (p ij.1 ij.2)
      match coordinates_to_algebraic __init__ ij.1 ij.2 with
      | Ok sq => bool_decide (sq ∈ moves)
      | Raise _ => false
      end) origins.

(** From every origin, [branch] returns a list without repeats whose
    squares are those that [p row col] describes. *)
Definition check_moves (branch : Z -> Z -> result (list string))
    (p : Z -> Z -> Z -> Z -> bool) : bool :=
  forallb (fun rc =>
    match branch rc.1 rc.2 with
    | Ok moves =>
      bool_decide (NoDup moves) && check_sound (p rc.1 rc.2) moves
      && check_complete (p rc.1 rc.2) moves
    | Raise _ => false
    end) origins.

(** The geometry of each kind of move, from [(row, col)] to [(i, j)]. *)
Definition knight_step (row col i j : Z) : bool :=
  on_board i && on_board j && (Z.abs (i - row) + Z.abs (j - col) =? 3)
  && negb (i =? row) && negb (j =? col).

Definition bishop_step (row col i j : Z) : bool :=
  on_board i && on_board j && (Z.abs (i - row) =? Z.abs (j - col))
  && negb ((i =? row) && (j =? col)).

Definition king_step (row col i j : Z) : bool :=
  on_board i && on_board j && (Z.max (Z.abs (i - row)) (Z.abs (j - col)) =? 1).

Definition rook_step (row col i j : Z) : bool :=
  ((j =? col) && on_board i && negb (i =? row))
  || ((i =? row) && on_board j && negb (j =? col)).

Definition white_pawn_step (row col i j : Z) : bool :=
  (j =? col) && on_board i && ((i =? row - 1) || ((i =? row - 2) && (row =? 6))).

Definition black_pawn_step (row col i j : Z) : bool :=
  (j =? col) && on_board i && ((i =? row + 1) || ((i =? row + 2) && (row =? 1))).

(** ** The parser on strings of any code points *)

(** The definitions above read a [string], whose characters are code points
    below 256.  A Python string in general is the list of its code points;
    [codes s] is the string [s] seen that way. *)
Definition codes (s : string) : list N := N_of_ascii <$> list_ascii_of_string s.

(** [s[i]] for a string of any code points and a literal index [i >= 0]. *)
Definition ustr_getitem (s : list N) (i : nat) : result N :=
  match s !! i with
  | Some c => Ok c
  | None => Raise IndexError
  end.

(** [l.index(x)] on the list of file letters, for a one-character string [x]
    of any code point: Python compares the code points. *)
Fixpoint list_index_code (l : list ascii) (x : N) : result Z :=
  match l with
  | [] => Raise ValueError
  | y :: l' =>
    if (N_of_ascii y =? x)%N then Ok 0 else (n ← list_index_code l' x; Ok (n + 1))
  end.

(** [int(c)] for a one-character string [c] of any code point.  [int]
    converts the decimal digits of the interpreter's Unicode database, the
    ASCII digits and those of other scripts, and raises [ValueError] on every
    other character; [decimal] is that table: the value of a decimal digit,
    [None] for another character.  The table is a parameter of the model;
    the theorems assume of it what holds in every version of the database
    (on the code points below 256 the decimal digits are ['0'..'9'], and a
    digit's value is in [0..9]). *)
Definition int_of_code (decimal : N -> option Z) (c : N) : result Z :=
  match decimal c with
  | Some d => Ok d
  | None => Raise ValueError
  end.

(** [algebraic_to_coordinates] on a string of any code points; on the codes
    of a [string] it is [algebraic_to_coordinates]
    (see [algebraic_to_coordinates_unicode_codes]). *)
Definition algebraic_to_coordinates_unicode (decimal : N -> option Z)
    (self : ChessBoard) (square : list N) : result (Z * Z) :=
  file ← ustr_getitem square 0;
  rank ← ustr_getitem square 1;
  file_idx ← list_index_code (files self) file;
  n ← int_of_code decimal rank;
  let rank_idx := 8 - n - 1 in
  Ok (rank_idx, file_idx).

(** What that parser accepts: at least two characters, a file letter
    ['a'..'h'] then a decimal digit of the table. *)
Definition is_file_code (c : N) : bool := (97 <=? c)%N && (c <=? 104)%N.

Definition parses_unicode (decimal : N -> option Z) (s : list N) : bool :=
  match s with
  | f :: r :: _ => is_file_code f && bool_decide (is_Some (decimal r))
  | _ => false
  end.

(** A table that knows the ASCII digits and the Arabic-Indic digits
    U+0660..U+0669, to run the parser on a digit beyond code point 255. *)
Definition decimal_ascii_arabic (c : N) : option Z :=
  if (48 <=? c)%N && (c <=? 57)%N then Some (Z.of_N c - 48)
  else if (1632 <=? c)%N && (c <=? 1641)%N then Some (Z.of_N c - 1632)
  else None.

(** * Properties *)

(** ** Helper lemmas *)

(** Membership in a list written out. *)
Ltac in_list := repeat constructor.

Lemma ascii_of_code (c : ascii) : ascii_of_N (Z.to_N (code c)) = c.
Proof. unfold code. rewrite N2Z.id. apply ascii_N_embedding. Qed.

Lemma code_eq_inv (c : ascii) (n : Z) : code c = n -> c = ascii_of_N (Z.to_N n).
Proof. intros <-. symmetry. apply ascii_of_code. Qed.

Lemma is_file_inv (f : ascii) :
  is_file f = true -> f ∈ ["a"; "b"; "c"; "d"; "e"; "f"; "g"; "h"]%char.
Proof.
  unfold is_file. intros H.
  assert (Hc : 97 <= code f <= 104) by lia.
  assert (Hn : code f = 97 \/ code f = 98 \/ code f = 99 \/ code f = 100 \/
               code f = 101 \/ code f = 102 \/ code f = 103 \/ code f = 104) by lia.
  repeat destruct Hn as [Hn | Hn];
    apply code_eq_inv in Hn; subst f; vm_compute; in_list.
Qed.

Lemma is_digit_inv (r : ascii) :
  is_digit r = true ->
  r ∈ ["0"; "1"; "2"; "3"; "4"; "5"; "6"; "7"; "8"; "9"]%char.
Proof.
  unfold is_digit. intros H.
  assert (Hn : code r = 48 \/ code r = 49 \/ code r = 50 \/ code r = 51 \/
               code r = 52 \/ code r = 53 \/ code r = 54 \/ code r = 55 \/
               code r = 56 \/ code r = 57) by lia.
  repeat destruct Hn as [Hn | Hn];
    apply code_eq_inv in Hn; subst r; vm_compute; in_list.
Qed.

Lemma is_rank_digit (r : ascii) : is_rank r = true -> is_digit r = true.
Proof. unfold is_rank, is_digit. lia. Qed.

Lemma is_rank_inv (r : ascii) :
  is_rank r = true -> r ∈ ["1"; "2"; "3"; "4"; "5"; "6"; "7"; "8"]%char.
Proof.
  intros H. pose proof (is_digit_inv r (is_rank_digit r H)) as Hd.
  repeat (apply elem_of_cons in Hd as [-> | Hd]);
    try (vm_compute in H; discriminate); try in_list.
  inversion Hd.
Qed.

Lemma valid_square_inv (s : string) :
  valid_square s = true ->
  exists f r, s = String f (String r EmptyString) /\ is_file f = true /\ is_rank r = true.
Proof.
  destruct s as [| f [| r [| ? ?]]]; simpl; try discriminate.
  intros H. apply andb_true_iff in H. eauto.
Qed.

(** Case analysis on an integer known to lie in a short interval. *)
Ltac enum_board x :=
  match goal with
  | H : 0 <= x < 8 |- _ =>
    assert (x = 0 \/ x = 1 \/ x = 2 \/ x = 3 \/ x = 4 \/ x = 5 \/ x = 6 \/ x = 7)
      as [-> | [-> | [-> | [-> | [-> | [-> | [-> | ->]]]]]]] by lia; clear H
  end.

(** [files.index] succeeds exactly on the file letters. *)
Lemma list_index_file (f : ascii) :
  is_file f = true ->
  exists k, list_index (files __init__) f = Ok k /\ 0 <= k < 8 /\
            files __init__ !! Z.to_nat k = Some f.
Proof.
  intros H. apply is_file_inv in H.
  repeat (apply elem_of_cons in H as [-> | H]);
    try (eexists; split; [reflexivity | split; [lia | reflexivity]]).
  inversion H.
Qed.

Lemma list_index_not_in (l : list ascii) (x : ascii) :
  x ∉ l -> list_index l x = Raise ValueError.
Proof.
  induction l as [| y l IH]; intros Hx; cbn [list_index]; [reflexivity |].
  apply not_elem_of_cons in Hx as [Hxy Hx].
  destruct (Ascii.eqb_spec y x) as [-> | _]; [congruence |].
  rewrite (IH Hx). reflexivity.
Qed.

Lemma list_index_not_file (f : ascii) :
  is_file f = false -> list_index (files __init__) f = Raise ValueError.
Proof.
  intros H. apply list_index_not_in. intros Hin. cbn [files __init__] in Hin.
  repeat (apply elem_of_cons in Hin as [-> | Hin]); try (vm_compute in H; discriminate).
  inversion Hin.
Qed.

Lemma int_of_char_digit (r : ascii) :
  is_digit r = true -> int_of_char r = Ok (code r - 48) /\ 0 <= code r - 48 <= 9.
Proof. unfold is_digit, int_of_char. intros H. rewrite H. split; [reflexivity | lia]. Qed.

Lemma int_of_char_not_digit (r : ascii) :
  is_digit r = false -> int_of_char r = Raise ValueError.
Proof. unfold is_digit, int_of_char. intros ->. reflexivity. Qed.

(** What the parser does on a string of at least two characters. *)
Lemma algebraic_to_coordinates_cons (f r : ascii) (rest : string) :
  algebraic_to_coordinates __init__ (String f (String r rest)) =
  file_idx ← list_index (files __init__) f;
  n ← int_of_char r;
  Ok (8 - n - 1, file_idx).
Proof. reflexivity. Qed.

(** A parse that succeeds yields a column of the board and a row that a
    decimal digit can produce. *)
Lemma algebraic_to_coordinates_Ok_inv (square : string) (row col : Z) :
  algebraic_to_coordinates __init__ square = Ok (row, col) ->
  -2 <= row <= 7 /\ 0 <= col < 8.
Proof.
  destruct square as [| f [| r rest]]; try discriminate.
  rewrite algebraic_to_coordinates_cons.
  destruct (is_file f) eqn:Hf.
  - destruct (list_index_file f Hf) as (k & -> & Hk & _).
    destruct (is_digit r) eqn:Hr.
    + destruct (int_of_char_digit r Hr) as [-> Hn]. cbn. intros [= <- <-]. lia.
    + rewrite (int_of_char_not_digit r Hr). discriminate.
  - rewrite (list_index_not_file f Hf). discriminate.
Qed.

(** Indexing a list outside [-len..len-1] is an [IndexError]. *)
Lemma list_getitem_out {A : Type} (l : list A) (i : Z) :
  ~ (- Z.of_nat (length l) <= i < Z.of_nat (length l)) ->
  list_getitem l i = Raise IndexError.
Proof.
  intros Hout. unfold list_getitem.
  destruct (Z.ltb_spec i 0) as [Hneg | Hpos];
    match goal with
    | |- context [(?a <=? ?b) && (?c <? ?d)] =>
      destruct ((a <=? b) && (c <? d)) eqn:E; [lia | reflexivity]
    end.
Qed.

(** On a column of the board the printer never fails, whatever the row. *)
Lemma coordinates_to_algebraic_col (col : Z) :
  0 <= col < 8 ->
  exists f, files __init__ !! Z.to_nat col = Some f /\
            forall row, coordinates_to_algebraic __init__ row col
                        = Ok (String f (str_of_int (8 - row - 1))).
Proof. intros H. enum_board col; eexists; split; reflexivity. Qed.

(** The parser on what it accepts, and on the well-formed squares. *)
Lemma algebraic_to_coordinates_parses (square : string) :
  parses square = true -> returns (algebraic_to_coordinates __init__ square).
Proof.
  destruct square as [| f [| r rest]]; cbn [parses]; try discriminate.
  intros [Hf Hr]%andb_true_iff. rewrite algebraic_to_coordinates_cons.
  destruct (list_index_file f Hf) as (k & -> & _).
  destruct (int_of_char_digit r Hr) as [-> _]. eexists. reflexivity.
Qed.

Lemma valid_square_parses (square : string) :
  valid_square square = true -> parses square = true.
Proof.
  intros Hv. apply valid_square_inv in Hv as (f & r & -> & Hf & Hr).
  cbn [parses]. rewrite Hf, (is_rank_digit r Hr). reflexivity.
Qed.

(** A well-formed square is parsed to a column of the board and to a row of
    [-1..6]: rank 8 is row [-1], rank 1 is row [6]. *)
Lemma valid_square_coordinates (square : string) :
  valid_square square = true ->
  exists row col, algebraic_to_coordinates __init__ square = Ok (row, col) /\
                  -1 <= row < 7 /\ 0 <= col < 8.
Proof.
  intros Hv. apply valid_square_inv in Hv as (f & r & -> & Hf & Hr).
  rewrite algebraic_to_coordinates_cons.
  destruct (list_index_file f Hf) as (k & -> & Hk & _).
  destruct (int_of_char_digit r (is_rank_digit r Hr)) as [-> _].
  eexists _, _. split; [reflexivity |]. unfold is_rank in Hr. lia.
Qed.

(** ** Notation conversion *)

(** C1.  The fixed points as the code computes them: ["e4"] goes to [(3,4)] and
    [(3,4)] back to ["e4"], but ["a1"] goes to [(6,0)] and ["h8"] to [(-1,7)],
    not to [(7,0)] and [(0,7)]: the row is [8 - rank - 1]. *)
Theorem algebraic_to_coordinates_fixed_points :
  algebraic_to_coordinates __init__ "e4" = Ok (3, 4) /\
  coordinates_to_algebraic __init__ 3 4 = Ok "e4"%string /\
  algebraic_to_coordinates __init__ "a1" = Ok (6, 0) /\
  algebraic_to_coordinates __init__ "h8" = Ok (-1, 7).
Proof. repeat split; reflexivity. Qed.

(** C2.  The two converters are inverse to each other: printing a pair of
    [0..7 x 0..7] and parsing the result gives the pair back, and parsing a
    well-formed square and printing the result gives the square back. *)
Theorem converters_inverse (row col : Z) (s : string) :
  0 <= row < 8 -> 0 <= col < 8 -> valid_square s = true ->
  coordinates_to_algebraic __init__ row col ≫= algebraic_to_coordinates __init__
    = Ok (row, col) /\
  algebraic_to_coordinates __init__ s
    ≫= (fun '(r, c) => coordinates_to_algebraic __init__ r c) = Ok s.
Proof.
  intros Hrow Hcol Hs. split.
  - enum_board row; enum_board col; reflexivity.
  - apply valid_square_inv in Hs as (f & r & -> & Hf & Hr).
    apply is_file_inv in Hf. apply is_rank_inv in Hr.
    repeat (apply elem_of_cons in Hf as [-> | Hf]); try (inversion Hf; fail);
      repeat (apply elem_of_cons in Hr as [-> | Hr]); try (inversion Hr; fail);
      reflexivity.
Qed.

Lemma converters_inverse_witness :
  coordinates_to_algebraic __init__ 3 4 ≫= algebraic_to_coordinates __init__
    = Ok (3, 4) /\
  algebraic_to_coordinates __init__ "h8"
    ≫= (fun '(r, c) => coordinates_to_algebraic __init__ r c) = Ok "h8"%string.
Proof. apply (converters_inverse 3 4 "h8"); [lia | lia | reflexivity]. Defined.

(** C3, as stated, fails: a second character that is a digit outside
    ['1'..'8'] does not make the parser fail; ["a9"] is parsed to [(-2, 0)]. *)
Lemma algebraic_to_coordinates_bad_rank_accepted :
  ~ (forall f r rest,
       is_file f = false \/ is_rank r = false ->
       raises (algebraic_to_coordinates __init__ (String f (String r rest)))).
Proof.
  intros H. destruct (H "a" "9" EmptyString)%char as [e He].
  - right. reflexivity.
  - discriminate He.
Qed.

(** On a [string] (code points below 256), the parser fails exactly when the
    input has fewer than two characters, or its first character is not a
    letter ['a'..'h'], or its second character is not a digit ['0'..'9']. *)
Lemma algebraic_to_coordinates_raises_iff (square : string) :
  (raises (algebraic_to_coordinates __init__ square) <-> parses square = false) /\
  (square = "z9"%string -> raises (algebraic_to_coordinates __init__ square)) /\
  (valid_square square = true -> returns (algebraic_to_coordinates __init__ square)).
Proof.
  pose proof (algebraic_to_coordinates_parses square) as Hgood.
  assert (Hbad : parses square = false ->
                 raises (algebraic_to_coordinates __init__ square)).
  { destruct square as [| f [| r rest]]; cbn [parses];
      [exists IndexError; reflexivity | exists IndexError; reflexivity |].
    intros Hp. exists ValueError. rewrite algebraic_to_coordinates_cons.
    destruct (is_file f) eqn:Hf.
    - destruct (list_index_file f Hf) as (k & -> & _).
      rewrite (int_of_char_not_digit r Hp). reflexivity.
    - rewrite (list_index_not_file f Hf). reflexivity. }
  split; [| split].
  - split; [| exact Hbad].
    intros [e He]. destruct (parses square) eqn:Hp; [| reflexivity].
    destruct (Hgood eq_refl) as [rc Hrc]. congruence.
  - intros ->. apply Hbad. reflexivity.
  - intros Hv. apply Hgood, valid_square_parses, Hv.
Qed.

(** C4, as stated, fails: a row outside [0..7] raises nothing, the rank is
    printed as it comes ([(8, 0)] gives ["a-1"]), and a column in [-8..-1]
    indexes the file list from its end ([(0, -1)] gives ["h7"]). *)
Lemma coordinates_to_algebraic_out_of_range_accepted :
  ~ (forall row col, ~ (0 <= row < 8 /\ 0 <= col < 8) ->
       raises (coordinates_to_algebraic __init__ row col)).
Proof.
  intros H. destruct (H 8 0) as [e He]; [lia |]. discriminate He.
Qed.

(** C4, amended.  The printer fails (with [IndexError]) exactly when the
    column is outside [-8..7]; no row makes it fail; so it returns normally on
    every pair of [0..7 x 0..7]. *)
Theorem coordinates_to_algebraic_errors (row col : Z) :
  (~ (-8 <= col < 8) -> coordinates_to_algebraic __init__ row col = Raise IndexError) /\
  (-8 <= col < 8 -> returns (coordinates_to_algebraic __init__ row col)) /\
  (0 <= row < 8 -> 0 <= col < 8 -> returns (coordinates_to_algebraic __init__ row col)).
Proof.
  assert (Hin : -8 <= col < 8 -> returns (coordinates_to_algebraic __init__ row col)).
  { intros Hc.
    destruct (Z.ltb_spec col 0) as [Hneg | Hpos].
    - assert (Hs : 0 <= col + 8 < 8) by lia.
      replace col with ((col + 8) - 8) by lia. remember (col + 8) as c.
      enum_board c; eexists; reflexivity.
    - assert (Hs : 0 <= col < 8) by lia.
      destruct (coordinates_to_algebraic_col col Hs) as (f & _ & ->).
      eexists. reflexivity. }
  split; [| split; [assumption | intros _ Hc; apply Hin; lia]].
  intros Hout. unfold coordinates_to_algebraic.
  rewrite list_getitem_out; [reflexivity | exact Hout].
Qed.

Lemma coordinates_to_algebraic_errors_witness :
  coordinates_to_algebraic __init__ 3 8 = Raise IndexError /\
  returns (coordinates_to_algebraic __init__ 12 (-8)) /\
  returns (coordinates_to_algebraic __init__ 3 4).
Proof.
  split; [| split].
  - apply (proj1 (coordinates_to_algebraic_errors 3 8)). lia.
  - apply (proj1 (proj2 (coordinates_to_algebraic_errors 12 (-8)))). lia.
  - apply (proj2 (proj2 (coordinates_to_algebraic_errors 3 4))); lia.
Defined.

(** ** Move enumeration *)

(** Depth two is enough: with any fuel from two on, the method is the
    dispatch below, in which the Queen branch runs the Rook and the Bishop
    branches on the parsed origin.  So more fuel changes nothing and the
    bound is never reached. *)
Lemma get_piece_moves_fuel_unfold (n : nat) (self : ChessBoard) (piece position : string) :
  get_piece_moves_fuel (S (S n)) self piece position =
  match algebraic_to_coordinates self position with
  | Raise e => Some (Raise e)
  | Ok (row, col) =>
    let kind := str_lower piece in
    if String.eqb kind "p" then Some (pawn_moves self piece row col)
    else if String.eqb kind "r" then Some (rook_moves self row col)
    else if String.eqb kind "n" then Some (knight_moves self row col)
    else if String.eqb kind "b" then Some (bishop_moves self row col)
    else if String.eqb kind "q" then
      Some (rook ← rook_moves self row col;
            bishop ← bishop_moves self row col;
            Ok (rook ++ bishop))
    else if String.eqb kind "k" then Some (king_moves self row col)
    else Some (Ok [])
  end.
Proof.
  cbn [get_piece_moves_fuel].
  destruct (algebraic_to_coordinates self position) as [[row col] | e]; [| reflexivity].
  cbv zeta.
  generalize (rook_moves self row col) (bishop_moves self row col). intros R B.
  repeat match goal with
         | |- (if ?b then _ else _) = _ => destruct b; [reflexivity |]
         end.
  destruct R; [| reflexivity]. destruct B; reflexivity.
Qed.

Lemma get_piece_moves_fuel_enough (n : nat) (self : ChessBoard) (piece position : string) :
  get_piece_moves_fuel (S (S n)) self piece position = get_piece_moves self piece position.
Proof. unfold get_piece_moves. rewrite !get_piece_moves_fuel_unfold. reflexivity. Qed.

Lemma get_piece_moves_total (self : ChessBoard) (piece position : string) :
  is_Some (get_piece_moves self piece position).
Proof.
  unfold get_piece_moves. rewrite get_piece_moves_fuel_unfold.
  destruct (algebraic_to_coordinates self position) as [[row col] | e]; [| eauto].
  cbv zeta.
  repeat match goal with
         | |- is_Some (if ?b then _ else _) => destruct b; [eauto |]
         end; eauto.
Qed.

(** The dispatch, branch by branch, once the origin is parsed. *)
Section Dispatch.
Variables (self : ChessBoard) (piece position : string) (row col : Z).
Hypothesis Hparse : algebraic_to_coordinates self position = Ok (row, col).

Lemma get_piece_moves_pawn :
  str_lower piece = "p"%string ->
  get_piece_moves self piece position = Some (pawn_moves self piece row col).
Proof.
  intros Hk. unfold get_piece_moves.
  rewrite get_piece_moves_fuel_unfold, Hparse, Hk. reflexivity.
Qed.

Lemma get_piece_moves_rook :
  str_lower piece = "r"%string ->
  get_piece_moves self piece position = Some (rook_moves self row col).
Proof.
  intros Hk. unfold get_piece_moves.
  rewrite get_piece_moves_fuel_unfold, Hparse, Hk. reflexivity.
Qed.

Lemma get_piece_moves_bishop :
  str_lower piece = "b"%string ->
  get_piece_moves self piece position = Some (bishop_moves self row col).
Proof.
  intros Hk. unfold get_piece_moves.
  rewrite get_piece_moves_fuel_unfold, Hparse, Hk. reflexivity.
Qed.

Lemma get_piece_moves_queen (rook bishop : list string) :
  str_lower piece = "q"%string ->
  rook_moves self row col = Ok rook ->
  bishop_moves self row col = Ok bishop ->
  get_piece_moves self piece position = Some (Ok (rook ++ bishop)).
Proof.
  intros Hk Hr Hb. unfold get_piece_moves.
  rewrite get_piece_moves_fuel_unfold, Hparse, Hk, Hr, Hb. reflexivity.
Qed.

Lemma get_piece_moves_unknown :
  ~ known_kind piece ->
  get_piece_moves self piece position = Some (Ok []).
Proof.
  unfold known_kind. intros Hk. unfold get_piece_moves.
  rewrite get_piece_moves_fuel_unfold, Hparse. cbv zeta.
  repeat match goal with
         | |- context [String.eqb (str_lower piece) ?k] =>
           destruct (String.eqb_spec (str_lower piece) k) as [Heq | _];
             [exfalso; apply Hk; rewrite Heq; in_list |]
         end.
  reflexivity.
Qed.

End Dispatch.

(** C5, as stated, fails: an unknown piece code raises nothing;
    [get_piece_moves("x", "e4")] is the empty list. *)
Lemma unknown_piece_not_raised :
  ~ (forall piece position,
       valid_square position = true -> ~ known_kind piece ->
       exists e, get_piece_moves __init__ piece position = Some (Raise e)).
Proof.
  intros H. destruct (H "x" "e4")%string as [e He].
  - reflexivity.
  - unfold known_kind. intros Hin.
    repeat (apply elem_of_cons in Hin as [Hin | Hin]; [discriminate Hin |]).
    inversion Hin.
  - discriminate He.
Qed.

(** C5, amended.  From every well-formed origin, a piece code whose
    lower-cased form is none of [p], [r], [n], [b], [q], [k] gets the empty
    move list, and no exception. *)
Theorem unknown_piece_no_moves (piece position : string) :
  valid_square position = true -> ~ known_kind piece ->
  get_piece_moves __init__ piece position = Some (Ok []).
Proof.
  intros Hv Hk.
  destruct (valid_square_coordinates position Hv) as (row & col & Hparse & _).
  exact (get_piece_moves_unknown __init__ piece position row col Hparse Hk).
Qed.

Lemma unknown_piece_no_moves_witness :
  get_piece_moves __init__ "x" "e4" = Some (Ok []).
Proof.
  apply (unknown_piece_no_moves "x" "e4").
  - reflexivity.
  - unfold known_kind. intros Hin.
    repeat (apply elem_of_cons in Hin as [Hin | Hin]; [discriminate Hin |]).
    inversion Hin.
Defined.

(** From every origin the parser accepts, the Rook and the Bishop branches
    return lists that share no square and repeat none: the eighty pairs of a
    row of [-2..7] and a column of [0..7], one by one. *)
Lemma rook_bishop_no_dup (row col : Z) :
  -2 <= row <= 7 -> 0 <= col < 8 ->
  exists rook bishop,
    rook_moves __init__ row col = Ok rook /\
    bishop_moves __init__ row col = Ok bishop /\
    NoDup (rook ++ bishop).
Proof.
  intros Hrow Hcol.
  assert (Hr : row = -2 \/ row = -1 \/ 0 <= row < 8) by lia.
  destruct Hr as [-> | [-> | Hr]]; [| | enum_board row]; enum_board col;
    (eexists _, _; split; [vm_compute; reflexivity |
                           split; [vm_compute; reflexivity |]];
     apply (bool_decide_unpack _); vm_compute; exact I).
Qed.

(** C7.  From every origin the parser accepts (the well-formed squares are
    among them, see [valid_square_coordinates]), the Queen's move list is the
    Rook's followed by the Bishop's, so the Queen's squares are those of the
    Rook together with those of the Bishop; the two lists share no square,
    and the Queen's list repeats none. *)
Theorem queen_is_rook_and_bishop (queen rook bishop position : string) (row col : Z) :
  algebraic_to_coordinates __init__ position = Ok (row, col) ->
  str_lower queen = "q"%string ->
  str_lower rook = "r"%string ->
  str_lower bishop = "b"%string ->
  exists rs bs,
    get_piece_moves __init__ rook position = Some (Ok rs) /\
    get_piece_moves __init__ bishop position = Some (Ok bs) /\
    get_piece_moves __init__ queen position = Some (Ok (rs ++ bs)) /\
    (forall sq, sq ∈ rs ++ bs <-> sq ∈ rs \/ sq ∈ bs) /\
    (forall sq, sq ∈ rs -> sq ∉ bs) /\
    NoDup (rs ++ bs).
Proof.
  intros Hparse Hq Hr Hb.
  destruct (algebraic_to_coordinates_Ok_inv position row col Hparse) as [Hrow Hcol].
  destruct (rook_bishop_no_dup row col Hrow Hcol) as (rs & bs & Hrs & Hbs & Hnd).
  exists rs, bs.
  rewrite (get_piece_moves_rook __init__ rook position row col Hparse Hr).
  rewrite (get_piece_moves_bishop __init__ bishop position row col Hparse Hb).
  rewrite (get_piece_moves_queen __init__ queen position row col Hparse rs bs Hq Hrs Hbs).
  rewrite Hrs, Hbs. repeat split; try assumption.
  - apply elem_of_app.
  - apply elem_of_app.
  - apply NoDup_app in Hnd as (_ & Hdisj & _). exact Hdisj.
Qed.

Lemma queen_is_rook_and_bishop_witness :
  exists rs bs,
    get_piece_moves __init__ "R" "a8" = Some (Ok rs) /\
    get_piece_moves __init__ "B" "a8" = Some (Ok bs) /\
    get_piece_moves __init__ "Q" "a8" = Some (Ok (rs ++ bs)) /\
    (forall sq, sq ∈ rs ++ bs <-> sq ∈ rs \/ sq ∈ bs) /\
    (forall sq, sq ∈ rs -> sq ∉ bs) /\
    NoDup (rs ++ bs).
Proof. apply (queen_is_rook_and_bishop "Q" "R" "B" "a8" (-1) 0); reflexivity. Defined.

(** C8.  The Rook from ["a1"] gets fourteen squares, but from ["a8"], parsed
    to row [-1], it gets fifteen: the whole column, rank 0 included, since no
    row of the loop is the origin's, and the seven other squares of rank 8. *)
Theorem rook_moves_from_a8 :
  get_piece_moves __init__ "R" "a8" =
    Some (Ok ["a7"; "a6"; "b8"; "a5"; "c8"; "a4"; "d8"; "a3"; "e8"; "a2"; "f8";
              "a1"; "g8"; "a0"; "h8"]%string) /\
  (exists moves, get_piece_moves __init__ "R" "a1" = Some (Ok moves) /\
                 length moves = 14%nat /\ "a0"%string ∈ moves /\ "a8"%string ∉ moves).
Proof.
  split; [reflexivity |]. eexists. split; [reflexivity |].
  split; [reflexivity |]. split; [in_list |].
  intros Hin. repeat (apply elem_of_cons in Hin as [Hin | Hin]; [discriminate Hin |]).
  inversion Hin.
Qed.

(** ** One-hot vectors *)

(** An index inside the array is assigned in place. *)
Lemma list_setitem_in {A : Type} (l : list A) (i : Z) (x : A) :
  0 <= i < Z.of_nat (length l) ->
  list_setitem l i x = Ok (<[Z.to_nat i := x]> l).
Proof.
  intros Hi. unfold list_setitem.
  destruct (Z.ltb_spec i 0) as [Hneg | _]; [lia |].
  destruct ((0 <=? i) && (i <? Z.of_nat (length l))) eqn:E; [reflexivity | lia].
Qed.

(** Printing a pair of the board and parsing the result gives the pair
    back. *)
Lemma print_then_parse (row col : Z) :
  0 <= row < 8 -> 0 <= col < 8 ->
  exists sq, coordinates_to_algebraic __init__ row col = Ok sq /\
             algebraic_to_coordinates __init__ sq = Ok (row, col).
Proof.
  intros Hrow Hcol. enum_board row; enum_board col; eexists; split; reflexivity.
Qed.

(** C10.  For every pair [(row, col)] of the board, the vector of the square
    printed for it has length 64, holds 1 at index [row * 8 + col], and 0 at
    the sixty-three other indices. *)
Theorem vector_representation_one_hot (row col : Z) :
  0 <= row < 8 -> 0 <= col < 8 ->
  exists v,
    coordinates_to_algebraic __init__ row col ≫= get_vector_representation __init__
      = Ok v /\
    length v = 64%nat /\
    v !! Z.to_nat (row * 8 + col) = Some 1%float /\
    (forall k, (k < 64)%nat -> k <> Z.to_nat (row * 8 + col) -> v !! k = Some 0%float).
Proof.
  intros Hrow Hcol.
  destruct (print_then_parse row col Hrow Hcol) as (sq & -> & Hparse).
  cbn [mbind result_bind]. unfold get_vector_representation. rewrite Hparse.
  cbn [mbind result_bind]. unfold np_zeros.
  rewrite list_setitem_in by (rewrite length_replicate; lia).
  eexists. split; [reflexivity |].
  split; [rewrite length_insert; apply length_replicate |].
  split.
  - apply list_lookup_insert_eq. rewrite length_replicate. lia.
  - intros k Hk Hne. rewrite list_lookup_insert_ne by congruence.
    apply lookup_replicate_2, Hk.
Qed.

Lemma vector_representation_one_hot_witness :
  exists v,
    coordinates_to_algebraic __init__ 3 4 ≫= get_vector_representation __init__
      = Ok v /\
    length v = 64%nat /\
    v !! Z.to_nat (3 * 8 + 4) = Some 1%float /\
    (forall k, (k < 64)%nat -> k <> Z.to_nat (3 * 8 + 4) -> v !! k = Some 0%float).
Proof. apply (vector_representation_one_hot 3 4); lia. Defined.

(** ** Distance matrix *)

(** The loops fill the table of the distances, entry by entry. *)
Lemma get_distance_matrix_table : get_distance_matrix __init__ = Ok distance_table.
Proof. vm_compute. reflexivity. Qed.

Lemma distance_table_entry (i j : Z) :
  0 <= i < 64 -> 0 <= j < 64 ->
  entry distance_table i j = Some (np_sqrt (squared_distance i j)).
Proof.
  intros Hi Hj. unfold entry, distance_table, range.
  rewrite list_lookup_fmap, lookup_seqZ_lt by lia. cbn [fmap option_fmap option_map mbind option_bind].
  rewrite list_lookup_fmap, lookup_seqZ_lt by lia. cbn [fmap option_fmap option_map].
  rewrite !Z.add_0_l, !Z2Nat.id by lia. reflexivity.
Qed.

Lemma squared_distance_sym (i j : Z) : squared_distance i j = squared_distance j i.
Proof. unfold squared_distance. ring. Qed.

Lemma squared_distance_diag (i : Z) : squared_distance i i = 0.
Proof. unfold squared_distance. ring. Qed.

Lemma forallb_rows (p : float -> bool) (m : list (list float)) :
  forallb (forallb p) m = true -> Forall (Forall (fun x => p x = true)) m.
Proof.
  intros H. apply Is_true_true, forallb_True in H.
  eapply Forall_impl; [exact H |]. intros r Hr. apply forallb_True in Hr.
  eapply Forall_impl; [exact Hr |]. intros x Hx. apply Is_true_true, Hx.
Qed.

Lemma distance_table_bounded :
  Forall (Forall (fun x => PrimFloat.leb x seven_sqrt2 = true)) distance_table.
Proof. apply forallb_rows. vm_compute. reflexivity. Qed.

(** C9.  The matrix has 64 rows of 64 entries; entry [(i, j)] is the square
    root of [(row_i - row_j)^2 + (col_i - col_j)^2] with [row_k = k div 8]
    and [col_k = k mod 8]; it is symmetric, zero on the diagonal, and its
    largest entry is [7 * sqrt 2], reached between squares 0 and 63. *)
Theorem distance_matrix_properties :
  exists d,
    get_distance_matrix __init__ = Ok d /\
    length d = 64%nat /\ Forall (fun r => length r = 64%nat) d /\
    (forall i j, 0 <= i < 64 -> 0 <= j < 64 ->
       entry d i j = Some (np_sqrt ((i / 8 - j / 8) ^ 2 + (i mod 8 - j mod 8) ^ 2))) /\
    (forall i j, 0 <= i < 64 -> 0 <= j < 64 -> entry d i j = entry d j i) /\
    (forall i, 0 <= i < 64 -> entry d i i = Some 0%float) /\
    (forall i j x, entry d i j = Some x -> PrimFloat.leb x seven_sqrt2 = true) /\
    entry d 0 63 = Some seven_sqrt2.
Proof.
  exists distance_table. split; [apply get_distance_matrix_table |].
  split; [reflexivity |].
  split.
  { unfold distance_table. apply Forall_fmap, Forall_forall. intros i _.
    cbn. rewrite length_fmap. reflexivity. }
  split; [exact distance_table_entry |].
  split.
  { intros i j Hi Hj. rewrite !distance_table_entry by assumption.
    rewrite squared_distance_sym. reflexivity. }
  split.
  { intros i Hi. rewrite distance_table_entry by assumption.
    rewrite squared_distance_diag. reflexivity. }
  split; [| reflexivity].
  intros i j x. unfold entry.
  destruct (distance_table !! Z.to_nat i) as [r |] eqn:Hr; [| discriminate].
  cbn [mbind option_bind]. intros Hx.
  pose proof (Forall_lookup_1 _ _ _ _ distance_table_bounded Hr) as Hb.
  exact (Forall_lookup_1 _ _ _ _ Hb Hx).
Qed.

(** ** The Rook's move count *)

(** From a well-formed origin the Rook gets fourteen squares, except from
    rank 8 (row [-1]), where it gets fifteen. *)
Theorem rook_move_count (rook position : string) (row col : Z) :
  valid_square position = true ->
  algebraic_to_coordinates __init__ position = Ok (row, col) ->
  str_lower rook = "r"%string ->
  exists moves,
    get_piece_moves __init__ rook position = Some (Ok moves) /\
    length moves = if row =? -1 then 15%nat else 14%nat.
Proof.
  intros Hv Hparse Hr.
  destruct (valid_square_coordinates position Hv) as (row' & col' & Hparse' & Hrow & Hcol).
  rewrite Hparse in Hparse'. injection Hparse' as <- <-.
  rewrite (get_piece_moves_rook __init__ rook position row col Hparse Hr).
  assert (Hs : row = -1 \/ 0 <= row < 8) by lia.
  destruct Hs as [-> | Hs]; [| enum_board row]; try lia; enum_board col;
    eexists; split; reflexivity.
Qed.

Lemma rook_move_count_witness :
  exists moves,
    get_piece_moves __init__ "R" "h8" = Some (Ok moves) /\
    length moves = if -1 =? -1 then 15%nat else 14%nat.
Proof. apply (rook_move_count "R" "h8" (-1) 7); reflexivity. Defined.

(** ** A scenario of the specification *)

(** The Knight from ["e4"] reaches the eight squares the specification
    lists, all of them on the board. *)
Theorem knight_moves_from_e4 :
  get_piece_moves __init__ "N" "e4" =
    Some (Ok ["d6"; "f6"; "c5"; "g5"; "c3"; "g3"; "d2"; "f2"]%string).
Proof. reflexivity. Qed.

(** * Further properties of the class *)

(** ** Checking origin by origin *)

Lemma origins_spec (row col : Z) :
  -2 <= row <= 7 -> 0 <= col < 8 -> In (row, col) origins.
Proof.
  intros Hrow Hcol. unfold origins. apply in_prod; apply list_elem_of_In, elem_of_seqZ; lia.
Qed.

Lemma check_sound_spec (p : Z -> Z -> bool) (moves : list string) :
  check_sound p moves = true ->
  forall sq, sq ∈ moves ->
    exists i j, algebraic_to_coordinates __init__ sq = Ok (i, j) /\ p i j = true.
Proof.
  unfold check_sound. intros H sq Hin.
  rewrite forallb_forall in H. specialize (H sq (proj1 (list_elem_of_In _ _) Hin)).
  destruct (algebraic_to_coordinates __init__ sq) as [[i j] | e]; [eauto | discriminate].
Qed.

Lemma check_complete_spec (p : Z -> Z -> bool) (moves : list string) :
  check_complete p moves = true ->
  forall i j, -2 <= i <= 7 -> 0 <= j < 8 -> p i j = true ->
    exists sq, coordinates_to_algebraic __init__ i j = Ok sq /\ sq ∈ moves.
Proof.
  unfold check_complete. intros H i j Hi Hj Hp.
  rewrite forallb_forall in H. specialize (H (i, j) (origins_spec i j Hi Hj)).
  cbn [fst snd] in H. rewrite Hp in H. cbn [implb] in H.
  destruct (coordinates_to_algebraic __init__ i j) as [sq | e]; [| discriminate].
  exists sq. split; [reflexivity |]. apply bool_decide_eq_true in H. exact H.
Qed.

Lemma check_moves_spec (branch : Z -> Z -> result (list string))
    (p : Z -> Z -> Z -> Z -> bool) :
  check_moves branch p = true ->
  forall row col, -2 <= row <= 7 -> 0 <= col < 8 ->
    exists moves,
      branch row col = Ok moves /\ NoDup moves /\
      check_sound (p row col) moves = true /\
      check_complete (p row col) moves = true.
Proof.
  unfold check_moves. intros H row col Hrow Hcol.
  rewrite forallb_forall in H. specialize (H (row, col) (origins_spec row col Hrow Hcol)).
  cbn [fst snd] in H.
  destruct (branch row col) as [moves | e]; [| discriminate].
  apply andb_true_iff in H as [[Hnd Hs]%andb_true_iff Hc].
  exists moves. repeat split; try assumption.
  apply bool_decide_eq_true in Hnd. exact Hnd.
Qed.

Lemma knight_checked : check_moves (knight_moves __init__) knight_step = true.
Proof. vm_compute. reflexivity. Qed.

Lemma bishop_checked : check_moves (bishop_moves __init__) bishop_step = true.
Proof. vm_compute. reflexivity. Qed.

Lemma king_checked : check_moves (king_moves __init__) king_step = true.
Proof. vm_compute. reflexivity. Qed.

Lemma rook_checked : check_moves (rook_moves __init__) rook_step = true.
Proof. vm_compute. reflexivity. Qed.

Lemma white_pawn_checked :
  check_moves (pawn_moves __init__ "P") white_pawn_step = true.
Proof. vm_compute. reflexivity. Qed.

Lemma black_pawn_checked :
  check_moves (pawn_moves __init__ "p") black_pawn_step = true.
Proof. vm_compute. reflexivity. Qed.

(** C6.  From every origin the parser accepts, parsed to [(row, col)] (the
    well-formed squares are among them, see [valid_square_coordinates]), the
    White pawn's list holds, without repeats, exactly the squares of the
    origin's column in row [row - 1] when [0 <= row - 1 < 8], and in row
    [row - 2] exactly when [row = 6]; the Black pawn's list holds exactly
    those in row [row + 1] when [0 <= row + 1 < 8], and in row [row + 2]
    exactly when [row = 1].  Each listed square parses back to such a pair
    and each such pair is printed to a listed square, so a step that leaves
    the board is left out, without error. *)
Theorem pawn_move_set (position : string) (row col : Z) :
  algebraic_to_coordinates __init__ position = Ok (row, col) ->
  exists white black,
    get_piece_moves __init__ "P" position = Some (Ok white) /\
    get_piece_moves __init__ "p" position = Some (Ok black) /\
    NoDup white /\ NoDup black /\
    (forall sq, sq ∈ white ->
       exists i, algebraic_to_coordinates __init__ sq = Ok (i, col) /\
                 0 <= i < 8 /\ (i = row - 1 \/ (i = row - 2 /\ row = 6))) /\
    (forall i, 0 <= i < 8 -> i = row - 1 \/ (i = row - 2 /\ row = 6) ->
       exists sq, coordinates_to_algebraic __init__ i col = Ok sq /\ sq ∈ white) /\
    (forall sq, sq ∈ black ->
       exists i, algebraic_to_coordinates __init__ sq = Ok (i, col) /\
                 0 <= i < 8 /\ (i = row + 1 \/ (i = row + 2 /\ row = 1))) /\
    (forall i, 0 <= i < 8 -> i = row + 1 \/ (i = row + 2 /\ row = 1) ->
       exists sq, coordinates_to_algebraic __init__ i col = Ok sq /\ sq ∈ black).
Proof.
  intros Hparse.
  destruct (algebraic_to_coordinates_Ok_inv position row col Hparse) as [Hrow Hcol].
  destruct (check_moves_spec _ _ white_pawn_checked row col Hrow Hcol)
    as (white & Hw & Hndw & Hsw & Hcw).
  destruct (check_moves_spec _ _ black_pawn_checked row col Hrow Hcol)
    as (black & Hb & Hndb & Hsb & Hcb).
  exists white, black.
  rewrite (get_piece_moves_pawn __init__ "P" position row col Hparse eq_refl), Hw.
  rewrite (get_piece_moves_pawn __init__ "p" position row col Hparse eq_refl), Hb.
  split; [reflexivity |]. split; [reflexivity |].
  split; [exact Hndw |]. split; [exact Hndb |].
  split; [| split; [| split]].
  - intros sq Hin. destruct (check_sound_spec _ _ Hsw sq Hin) as (i & j & Hp & Hq).
    unfold white_pawn_step, on_board in Hq.
    assert (j = col) as -> by lia. exists i. split; [exact Hp | lia].
  - intros i Hi Hd. apply (check_complete_spec _ _ Hcw i col); [lia | lia |].
    unfold white_pawn_step, on_board. lia.
  - intros sq Hin. destruct (check_sound_spec _ _ Hsb sq Hin) as (i & j & Hp & Hq).
    unfold black_pawn_step, on_board in Hq.
    assert (j = col) as -> by lia. exists i. split; [exact Hp | lia].
  - intros i Hi Hd. apply (check_complete_spec _ _ Hcb i col); [lia | lia |].
    unfold black_pawn_step, on_board. lia.
Qed.

Lemma pawn_move_set_witness :
  exists white black,
    get_piece_moves __init__ "P" "e1" = Some (Ok white) /\
    get_piece_moves __init__ "p" "e1" = Some (Ok black) /\
    NoDup white /\ NoDup black /\
    (forall sq, sq ∈ white ->
       exists i, algebraic_to_coordinates __init__ sq = Ok (i, 4) /\
                 0 <= i < 8 /\ (i = 6 - 1 \/ (i = 6 - 2 /\ 6 = 6))) /\
    (forall i, 0 <= i < 8 -> i = 6 - 1 \/ (i = 6 - 2 /\ 6 = 6) ->
       exists sq, coordinates_to_algebraic __init__ i 4 = Ok sq /\ sq ∈ white) /\
    (forall sq, sq ∈ black ->
       exists i, algebraic_to_coordinates __init__ sq = Ok (i, 4) /\
                 0 <= i < 8 /\ (i = 6 + 1 \/ (i = 6 + 2 /\ 6 = 1))) /\
    (forall i, 0 <= i < 8 -> i = 6 + 1 \/ (i = 6 + 2 /\ 6 = 1) ->
       exists sq, coordinates_to_algebraic __init__ i 4 = Ok sq /\ sq ∈ black).
Proof. apply (pawn_move_set "e1" 6 4). reflexivity. Defined.

(** The remaining branches of the dispatch, once the origin is parsed. *)
Lemma get_piece_moves_knight (self : ChessBoard) (piece position : string) (row col : Z) :
  algebraic_to_coordinates self position = Ok (row, col) ->
  str_lower piece = "n"%string ->
  get_piece_moves self piece position = Some (knight_moves self row col).
Proof.
  intros Hparse Hk. unfold get_piece_moves.
  rewrite get_piece_moves_fuel_unfold, Hparse, Hk. reflexivity.
Qed.

Lemma get_piece_moves_king (self : ChessBoard) (piece position : string) (row col : Z) :
  algebraic_to_coordinates self position = Ok (row, col) ->
  str_lower piece = "k"%string ->
  get_piece_moves self piece position = Some (king_moves self row col).
Proof.
  intros Hparse Hk. unfold get_piece_moves.
  rewrite get_piece_moves_fuel_unfold, Hparse, Hk. reflexivity.
Qed.

(** A pawn code is ["P"] or ["p"]. *)
Lemma char_lower_p_inv (c : ascii) :
  char_lower c = "p"%char -> c = "P"%char \/ c = "p"%char.
Proof.
  destruct c as [[] [] [] [] [] [] [] []]; vm_compute; intros H;
    first [discriminate H | left; reflexivity | right; reflexivity].
Qed.

Lemma str_lower_p_inv (piece : string) :
  str_lower piece = "p"%string -> piece = "P"%string \/ piece = "p"%string.
Proof.
  destruct piece as [| c [| c' rest]]; cbn [str_lower]; intros H; try discriminate H.
  injection H as H. destruct (char_lower_p_inv c H) as [-> | ->]; auto.
Qed.

(** ** The Knight, the Bishop, the King and the Rook *)

(** The Knight's list, from every origin the parser accepts, holds without
    repeats exactly the squares of the board whose row and column both
    differ from the origin's, by three steps in all. *)
Theorem knight_move_set (knight position : string) (row col : Z) :
  algebraic_to_coordinates __init__ position = Ok (row, col) ->
  str_lower knight = "n"%string ->
  exists moves,
    get_piece_moves __init__ knight position = Some (Ok moves) /\
    NoDup moves /\
    (forall sq, sq ∈ moves ->
       exists i j, algebraic_to_coordinates __init__ sq = Ok (i, j) /\
                   0 <= i < 8 /\ 0 <= j < 8 /\
                   Z.abs (i - row) + Z.abs (j - col) = 3 /\ i <> row /\ j <> col) /\
    (forall i j, 0 <= i < 8 -> 0 <= j < 8 ->
       Z.abs (i - row) + Z.abs (j - col) = 3 -> i <> row -> j <> col ->
       exists sq, coordinates_to_algebraic __init__ i j = Ok sq /\ sq ∈ moves).
Proof.
  intros Hparse Hk.
  destruct (algebraic_to_coordinates_Ok_inv position row col Hparse) as [Hrow Hcol].
  destruct (check_moves_spec _ _ knight_checked row col Hrow Hcol)
    as (moves & Hm & Hnd & Hs & Hc).
  exists moves. rewrite (get_piece_moves_knight _ _ _ _ _ Hparse Hk), Hm.
  split; [reflexivity |]. split; [exact Hnd |]. split.
  - intros sq Hin. destruct (check_sound_spec _ _ Hs sq Hin) as (i & j & Hp & Hq).
    exists i, j. split; [exact Hp |]. unfold knight_step, on_board in Hq. lia.
  - intros i j Hi Hj Hd Hi' Hj'. apply (check_complete_spec _ _ Hc i j); [lia | lia |].
    unfold knight_step, on_board. lia.
Qed.

Lemma knight_move_set_witness :
  exists moves,
    get_piece_moves __init__ "N" "e4" = Some (Ok moves) /\
    NoDup moves /\
    (forall sq, sq ∈ moves ->
       exists i j, algebraic_to_coordinates __init__ sq = Ok (i, j) /\
                   0 <= i < 8 /\ 0 <= j < 8 /\
                   Z.abs (i - 3) + Z.abs (j - 4) = 3 /\ i <> 3 /\ j <> 4) /\
    (forall i j, 0 <= i < 8 -> 0 <= j < 8 ->
       Z.abs (i - 3) + Z.abs (j - 4) = 3 -> i <> 3 -> j <> 4 ->
       exists sq, coordinates_to_algebraic __init__ i j = Ok sq /\ sq ∈ moves).
Proof. apply (knight_move_set "N" "e4" 3 4); reflexivity. Defined.

(** The Bishop's list, from every origin the parser accepts, holds without
    repeats exactly the squares of the board, other than the origin, as far
    from the origin in rows as in columns. *)
Theorem bishop_move_set (bishop position : string) (row col : Z) :
  algebraic_to_coordinates __init__ position = Ok (row, col) ->
  str_lower bishop = "b"%string ->
  exists moves,
    get_piece_moves __init__ bishop position = Some (Ok moves) /\
    NoDup moves /\
    (forall sq, sq ∈ moves ->
       exists i j, algebraic_to_coordinates __init__ sq = Ok (i, j) /\
                   0 <= i < 8 /\ 0 <= j < 8 /\
                   Z.abs (i - row) = Z.abs (j - col) /\ (i, j) <> (row, col)) /\
    (forall i j, 0 <= i < 8 -> 0 <= j < 8 ->
       Z.abs (i - row) = Z.abs (j - col) -> (i, j) <> (row, col) ->
       exists sq, coordinates_to_algebraic __init__ i j = Ok sq /\ sq ∈ moves).
Proof.
  intros Hparse Hk.
  destruct (algebraic_to_coordinates_Ok_inv position row col Hparse) as [Hrow Hcol].
  destruct (check_moves_spec _ _ bishop_checked row col Hrow Hcol)
    as (moves & Hm & Hnd & Hs & Hc).
  exists moves. rewrite (get_piece_moves_bishop _ _ _ _ _ Hparse Hk), Hm.
  split; [reflexivity |]. split; [exact Hnd |]. split.
  - intros sq Hin. destruct (check_sound_spec _ _ Hs sq Hin) as (i & j & Hp & Hq).
    exists i, j. split; [exact Hp |]. unfold bishop_step, on_board in Hq.
    repeat split; try lia. intros [= -> ->]. lia.
  - intros i j Hi Hj Hd Hne. apply (check_complete_spec _ _ Hc i j); [lia | lia |].
    unfold bishop_step, on_board.
    assert (i <> row \/ j <> col) as Hor
      by (destruct (Z.eq_dec i row) as [-> |]; [right; congruence | left; assumption]).
    lia.
Qed.

Lemma bishop_move_set_witness :
  exists moves,
    get_piece_moves __init__ "B" "a8" = Some (Ok moves) /\
    NoDup moves /\
    (forall sq, sq ∈ moves ->
       exists i j, algebraic_to_coordinates __init__ sq = Ok (i, j) /\
                   0 <= i < 8 /\ 0 <= j < 8 /\
                   Z.abs (i - (-1)) = Z.abs (j - 0) /\ (i, j) <> (-1, 0)) /\
    (forall i j, 0 <= i < 8 -> 0 <= j < 8 ->
       Z.abs (i - (-1)) = Z.abs (j - 0) -> (i, j) <> (-1, 0) ->
       exists sq, coordinates_to_algebraic __init__ i j = Ok sq /\ sq ∈ moves).
Proof. apply (bishop_move_set "B" "a8" (-1) 0); reflexivity. Defined.

(** The King's list, from every origin the parser accepts, holds without
    repeats exactly the squares of the board one step from the origin, along
    a row, a column or a diagonal. *)
Theorem king_move_set (king position : string) (row col : Z) :
  algebraic_to_coordinates __init__ position = Ok (row, col) ->
  str_lower king = "k"%string ->
  exists moves,
    get_piece_moves __init__ king position = Some (Ok moves) /\
    NoDup moves /\
    (forall sq, sq ∈ moves ->
       exists i j, algebraic_to_coordinates __init__ sq = Ok (i, j) /\
                   0 <= i < 8 /\ 0 <= j < 8 /\
                   Z.max (Z.abs (i - row)) (Z.abs (j - col)) = 1) /\
    (forall i j, 0 <= i < 8 -> 0 <= j < 8 ->
       Z.max (Z.abs (i - row)) (Z.abs (j - col)) = 1 ->
       exists sq, coordinates_to_algebraic __init__ i j = Ok sq /\ sq ∈ moves).
Proof.
  intros Hparse Hk.
  destruct (algebraic_to_coordinates_Ok_inv position row col Hparse) as [Hrow Hcol].
  destruct (check_moves_spec _ _ king_checked row col Hrow Hcol)
    as (moves & Hm & Hnd & Hs & Hc).
  exists moves. rewrite (get_piece_moves_king _ _ _ _ _ Hparse Hk), Hm.
  split; [reflexivity |]. split; [exact Hnd |]. split.
  - intros sq Hin. destruct (check_sound_spec _ _ Hs sq Hin) as (i & j & Hp & Hq).
    exists i, j. split; [exact Hp |]. unfold king_step, on_board in Hq. lia.
  - intros i j Hi Hj Hd. apply (check_complete_spec _ _ Hc i j); [lia | lia |].
    unfold king_step, on_board. lia.
Qed.

Lemma king_move_set_witness :
  exists moves,
    get_piece_moves __init__ "K" "h8" = Some (Ok moves) /\
    NoDup moves /\
    (forall sq, sq ∈ moves ->
       exists i j, algebraic_to_coordinates __init__ sq = Ok (i, j) /\
                   0 <= i < 8 /\ 0 <= j < 8 /\
                   Z.max (Z.abs (i - (-1))) (Z.abs (j - 7)) = 1) /\
    (forall i j, 0 <= i < 8 -> 0 <= j < 8 ->
       Z.max (Z.abs (i - (-1))) (Z.abs (j - 7)) = 1 ->
       exists sq, coordinates_to_algebraic __init__ i j = Ok sq /\ sq ∈ moves).
Proof. apply (king_move_set "K" "h8" (-1) 7); reflexivity. Defined.

(** The Rook's list, from every origin the parser accepts, holds without
    repeats exactly the squares that keep the origin's column with another
    row of the board, and those that keep the origin's row with another
    column of the board; the latter are listed even when the origin's row is
    off the board. *)
Theorem rook_move_set (rook position : string) (row col : Z) :
  algebraic_to_coordinates __init__ position = Ok (row, col) ->
  str_lower rook = "r"%string ->
  exists moves,
    get_piece_moves __init__ rook position = Some (Ok moves) /\
    NoDup moves /\
    (forall sq, sq ∈ moves ->
       exists i j, algebraic_to_coordinates __init__ sq = Ok (i, j) /\
                   ((j = col /\ 0 <= i < 8 /\ i <> row) \/
                    (i = row /\ 0 <= j < 8 /\ j <> col))) /\
    (forall i j,
       (j = col /\ 0 <= i < 8 /\ i <> row) \/ (i = row /\ 0 <= j < 8 /\ j <> col) ->
       exists sq, coordinates_to_algebraic __init__ i j = Ok sq /\ sq ∈ moves).
Proof.
  intros Hparse Hk.
  destruct (algebraic_to_coordinates_Ok_inv position row col Hparse) as [Hrow Hcol].
  destruct (check_moves_spec _ _ rook_checked row col Hrow Hcol)
    as (moves & Hm & Hnd & Hs & Hc).
  exists moves. rewrite (get_piece_moves_rook _ _ _ _ _ Hparse Hk), Hm.
  split; [reflexivity |]. split; [exact Hnd |]. split.
  - intros sq Hin. destruct (check_sound_spec _ _ Hs sq Hin) as (i & j & Hp & Hq).
    exists i, j. split; [exact Hp |]. unfold rook_step, on_board in Hq. lia.
  - intros i j Hd. apply (check_complete_spec _ _ Hc i j); [lia | lia |].
    unfold rook_step, on_board. lia.
Qed.

Lemma rook_move_set_witness :
  exists moves,
    get_piece_moves __init__ "R" "a8" = Some (Ok moves) /\
    NoDup moves /\
    (forall sq, sq ∈ moves ->
       exists i j, algebraic_to_coordinates __init__ sq = Ok (i, j) /\
                   ((j = 0 /\ 0 <= i < 8 /\ i <> -1) \/
                    (i = -1 /\ 0 <= j < 8 /\ j <> 0))) /\
    (forall i j,
       (j = 0 /\ 0 <= i < 8 /\ i <> -1) \/ (i = -1 /\ 0 <= j < 8 /\ j <> 0) ->
       exists sq, coordinates_to_algebraic __init__ i j = Ok sq /\ sq ∈ moves).
Proof. apply (rook_move_set "R" "a8" (-1) 0); reflexivity. Defined.

(** ** What the move lists never hold, and when the method fails *)

(** The Pawn branch returns normally whatever the case of the piece code. *)
Lemma pawn_moves_returns (piece : string) (row col : Z) :
  0 <= col < 8 -> returns (pawn_moves __init__ piece row col).
Proof.
  intros Hcol. destruct (coordinates_to_algebraic_col col Hcol) as (f & _ & Hsq).
  unfold pawn_moves, append_square. cbv zeta. rewrite !Hsq.
  destruct (on_board (row + (if str_isupper piece then -1 else 1)));
    cbn [mbind result_bind];
    destruct ((str_isupper piece && (row =? 6)) || (str_islower piece && (row =? 1)));
    try destruct (on_board (row + 2 * (if str_isupper piece then -1 else 1)));
    eexists; reflexivity.
Qed.

(** [get_piece_moves] fails exactly when the parser fails on the origin, and
    with the parser's exception: no branch raises anything of its own, for
    any piece code. *)
Theorem get_piece_moves_errors (piece position : string) :
  match algebraic_to_coordinates __init__ position with
  | Raise e => get_piece_moves __init__ piece position = Some (Raise e)
  | Ok _ => exists moves, get_piece_moves __init__ piece position = Some (Ok moves)
  end.
Proof.
  unfold get_piece_moves. rewrite get_piece_moves_fuel_unfold.
  destruct (algebraic_to_coordinates __init__ position) as [[row col] | e] eqn:Hparse;
    [| reflexivity].
  destruct (algebraic_to_coordinates_Ok_inv position row col Hparse) as [Hrow Hcol].
  destruct (check_moves_spec _ _ rook_checked row col Hrow Hcol) as (rs & -> & _).
  destruct (check_moves_spec _ _ knight_checked row col Hrow Hcol) as (ns & -> & _).
  destruct (check_moves_spec _ _ bishop_checked row col Hrow Hcol) as (bs & -> & _).
  destruct (check_moves_spec _ _ king_checked row col Hrow Hcol) as (ks & -> & _).
  destruct (pawn_moves_returns piece row col Hcol) as (ps & ->).
  cbv zeta.
  repeat match goal with
         | |- exists _, (if ?b then _ else _) = _ => destruct b; [eexists; reflexivity |]
         end.
  eexists; reflexivity.
Qed.

(** Printing a pair the parser can return and parsing the result gives the
    pair back. *)
Lemma print_then_parse_origin (row col : Z) :
  -2 <= row <= 7 -> 0 <= col < 8 ->
  exists sq, coordinates_to_algebraic __init__ row col = Ok sq /\
             algebraic_to_coordinates __init__ sq = Ok (row, col).
Proof.
  intros Hrow Hcol.
  assert (Hr : row = -2 \/ row = -1 \/ 0 <= row < 8) by lia.
  destruct Hr as [-> | [-> | Hr]]; [| | enum_board row]; enum_board col;
    eexists; split; reflexivity.
Qed.

(** A list whose squares all parse to pairs other than the origin does not
    hold the origin's square. *)
Lemma check_sound_excludes (p : Z -> Z -> bool) (moves : list string)
    (row col : Z) (o : string) :
  check_sound p moves = true ->
  p row col = false ->
  algebraic_to_coordinates __init__ o = Ok (row, col) ->
  o ∉ moves.
Proof.
  intros Hs Hp Ho Hin.
  destruct (check_sound_spec _ _ Hs o Hin) as (i & j & Hparse & Hq).
  rewrite Ho in Hparse. injection Hparse as <- <-. congruence.
Qed.

(** Whatever the piece code, the list [get_piece_moves] returns from an
    origin the parser accepts repeats no square and does not hold the
    origin's own square. *)
Theorem moves_exclude_origin (piece position : string) (row col : Z)
    (moves : list string) (o : string) :
  algebraic_to_coordinates __init__ position = Ok (row, col) ->
  coordinates_to_algebraic __init__ row col = Ok o ->
  get_piece_moves __init__ piece position = Some (Ok moves) ->
  NoDup moves /\ o ∉ moves.
Proof.
  intros Hparse Ho Hm.
  destruct (algebraic_to_coordinates_Ok_inv position row col Hparse) as [Hrow Hcol].
  destruct (print_then_parse_origin row col Hrow Hcol) as (o' & Ho' & Hback).
  rewrite Ho in Ho'. injection Ho' as <-.
  assert (Hbranch : forall branch p ms,
            check_moves branch p = true -> p row col row col = false ->
            branch row col = Ok ms -> NoDup ms /\ o ∉ ms).
  { intros branch p ms Hchk Hp Hb.
    destruct (check_moves_spec _ _ Hchk row col Hrow Hcol) as (ms' & Hms & Hnd & Hs & _).
    rewrite Hb in Hms. injection Hms as <-.
    split; [exact Hnd | exact (check_sound_excludes _ _ _ _ _ Hs Hp Hback)]. }
  assert (Hself : forall a b : Z, (a =? a) = true /\ (b =? b) = true) by lia.
  destruct (Hself row col) as (Er & Ec).
  assert (Hrook : rook_step row col row col = false)
    by (unfold rook_step; rewrite Er, Ec, !andb_false_r; reflexivity).
  assert (Hbishop : bishop_step row col row col = false)
    by (unfold bishop_step; rewrite Er, Ec, !andb_false_r; reflexivity).
  unfold get_piece_moves in Hm. rewrite get_piece_moves_fuel_unfold, Hparse in Hm.
  cbv zeta in Hm.
  destruct (String.eqb_spec (str_lower piece) "p") as [Hp | _].
  { injection Hm as Hm. destruct (str_lower_p_inv piece Hp) as [-> | ->].
    - apply (Hbranch _ _ _ white_pawn_checked); [| exact Hm].
      unfold white_pawn_step. rewrite Ec. destruct (on_board row); [| reflexivity].
      cbn [andb]. apply orb_false_iff. split; [lia |].
      apply andb_false_iff. left. lia.
    - apply (Hbranch _ _ _ black_pawn_checked); [| exact Hm].
      unfold black_pawn_step. rewrite Ec. destruct (on_board row); [| reflexivity].
      cbn [andb]. apply orb_false_iff. split; [lia |].
      apply andb_false_iff. left. lia. }
  destruct (String.eqb_spec (str_lower piece) "r") as [_ | _].
  { injection Hm as Hm. exact (Hbranch _ _ _ rook_checked Hrook Hm). }
  destruct (String.eqb_spec (str_lower piece) "n") as [_ | _].
  { injection Hm as Hm. apply (Hbranch _ _ _ knight_checked); [| exact Hm].
    unfold knight_step. rewrite Er, Ec, !andb_false_r. reflexivity. }
  destruct (String.eqb_spec (str_lower piece) "b") as [_ | _].
  { injection Hm as Hm. exact (Hbranch _ _ _ bishop_checked Hbishop Hm). }
  destruct (String.eqb_spec (str_lower piece) "q") as [_ | _].
  { destruct (rook_bishop_no_dup row col Hrow Hcol) as (rs & bs & Hrs & Hbs & Hnd).
    rewrite Hrs, Hbs in Hm. cbn [mbind result_bind] in Hm. injection Hm as <-.
    split; [exact Hnd |]. rewrite elem_of_app. intros [Hin | Hin].
    - exact (proj2 (Hbranch _ _ _ rook_checked Hrook Hrs) Hin).
    - exact (proj2 (Hbranch _ _ _ bishop_checked Hbishop Hbs) Hin). }
  destruct (String.eqb_spec (str_lower piece) "k") as [_ | _].
  { injection Hm as Hm. apply (Hbranch _ _ _ king_checked); [| exact Hm].
    unfold king_step. replace (row - row) with 0 by lia. replace (col - col) with 0 by lia.
    rewrite andb_false_r. reflexivity. }
  injection Hm as <-. split; [constructor | apply not_elem_of_nil].
Qed.

Lemma moves_exclude_origin_witness :
  NoDup ["g7"; "h7"]%string /\ "h8"%string ∉ ["g7"; "h7"]%string.
Proof. apply (moves_exclude_origin "K" "h8" (-1) 7); reflexivity. Defined.

(** ** Square colours *)

(** Two squares have the same colour exactly when their [row + col] have
    the same parity. *)
Lemma get_square_color_parity (self : ChessBoard) (r1 c1 r2 c2 : Z) :
  get_square_color self r1 c1 = get_square_color self r2 c2 <->
  (r1 + c1) mod 2 = (r2 + c2) mod 2.
Proof.
  unfold get_square_color.
  pose proof (Z.mod_pos_bound (r1 + c1) 2 eq_refl) as B1.
  pose proof (Z.mod_pos_bound (r2 + c2) 2 eq_refl) as B2.
  destruct (Z.eqb_spec ((r1 + c1) mod 2) 0) as [E1 | E1],
           (Z.eqb_spec ((r2 + c2) mod 2) 0) as [E2 | E2];
    split; intros H; try reflexivity; try discriminate H;
    first [lia | exfalso; lia].
Qed.

(** From every origin the parser accepts, each square of the Bishop's list
    has the colour of the origin, and each square of the Knight's list has
    the other colour. *)
Theorem bishop_keeps_colour_knight_changes_it
    (bishop knight position : string) (row col : Z) (bs ns : list string) :
  algebraic_to_coordinates __init__ position = Ok (row, col) ->
  str_lower bishop = "b"%string -> str_lower knight = "n"%string ->
  get_piece_moves __init__ bishop position = Some (Ok bs) ->
  get_piece_moves __init__ knight position = Some (Ok ns) ->
  (forall sq, sq ∈ bs ->
     exists i j, algebraic_to_coordinates __init__ sq = Ok (i, j) /\
                 get_square_color __init__ i j = get_square_color __init__ row col) /\
  (forall sq, sq ∈ ns ->
     exists i j, algebraic_to_coordinates __init__ sq = Ok (i, j) /\
                 get_square_color __init__ i j <> get_square_color __init__ row col).
Proof.
  intros Hparse Hb Hn Hbs Hns.
  destruct (algebraic_to_coordinates_Ok_inv position row col Hparse) as [Hrow Hcol].
  rewrite (get_piece_moves_bishop _ _ _ _ _ Hparse Hb) in Hbs.
  rewrite (get_piece_moves_knight _ _ _ _ _ Hparse Hn) in Hns.
  destruct (check_moves_spec _ _ bishop_checked row col Hrow Hcol) as (bs' & Hb' & _ & Hsb & _).
  destruct (check_moves_spec _ _ knight_checked row col Hrow Hcol) as (ns' & Hn' & _ & Hsn & _).
  assert (bs' = bs) as -> by congruence. assert (ns' = ns) as -> by congruence.
  split; intros sq Hin.
  - destruct (check_sound_spec _ _ Hsb sq Hin) as (i & j & Hp & Hq).
    exists i, j. split; [exact Hp |]. apply get_square_color_parity.
    unfold bishop_step, on_board in Hq. Z.to_euclidean_division_equations. lia.
  - destruct (check_sound_spec _ _ Hsn sq Hin) as (i & j & Hp & Hq).
    exists i, j. split; [exact Hp |]. rewrite get_square_color_parity.
    unfold knight_step, on_board in Hq. Z.to_euclidean_division_equations. lia.
Qed.

Lemma bishop_keeps_colour_knight_changes_it_witness :
  (forall sq, sq ∈ ["d7"; "f7"; "c6"; "g6"; "b5"; "h5"; "a4"]%string ->
     exists i j, algebraic_to_coordinates __init__ sq = Ok (i, j) /\
                 get_square_color __init__ i j = get_square_color __init__ (-1) 4) /\
  (forall sq, sq ∈ ["c7"; "g7"; "d6"; "f6"]%string ->
     exists i j, algebraic_to_coordinates __init__ sq = Ok (i, j) /\
                 get_square_color __init__ i j <> get_square_color __init__ (-1) 4).
Proof.
  apply (bishop_keeps_colour_knight_changes_it "B" "N" "e8" (-1) 4); reflexivity.
Defined.

(** The colour of the pair a square is parsed to, read off the square's
    name: it is ["light"] exactly when the file's index (['a'] is 0) plus
    the rank digit is odd, so ["a1"] is light and ["h1"] is dark. *)
Theorem square_colour_by_name (f r : ascii) (rest : string) :
  is_file f = true -> is_digit r = true ->
  exists row col,
    algebraic_to_coordinates __init__ (String f (String r rest)) = Ok (row, col) /\
    (get_square_color __init__ row col = "light"%string <->
     Z.odd ((code f - 97) + (code r - 48)) = true) /\
    (get_square_color __init__ row col = "dark"%string <->
     Z.even ((code f - 97) + (code r - 48)) = true).
Proof.
  intros Hf Hr. apply is_file_inv in Hf. apply is_digit_inv in Hr.
  repeat (apply elem_of_cons in Hf as [-> | Hf]); try (inversion Hf; fail);
    repeat (apply elem_of_cons in Hr as [-> | Hr]); try (inversion Hr; fail);
    (eexists _, _; split; [reflexivity |]; vm_compute;
     split; split; intros H; first [reflexivity | discriminate H]).
Qed.

Lemma square_colour_by_name_witness :
  exists row col,
    algebraic_to_coordinates __init__ "a1" = Ok (row, col) /\
    (get_square_color __init__ row col = "light"%string <->
     Z.odd ((code "a" - 97) + (code "1" - 48)) = true) /\
    (get_square_color __init__ row col = "dark"%string <->
     Z.even ((code "a" - 97) + (code "1" - 48)) = true).
Proof. apply (square_colour_by_name "a" "1" EmptyString); reflexivity. Defined.

(** ** One-hot vectors of every accepted square *)

(** A negative index inside the array counts from its end. *)
Lemma list_setitem_neg {A : Type} (l : list A) (i : Z) (x : A) :
  - Z.of_nat (length l) <= i < 0 ->
  list_setitem l i x = Ok (<[Z.to_nat (i + Z.of_nat (length l)) := x]> l).
Proof.
  intros Hi. unfold list_setitem.
  destruct (Z.ltb_spec i 0) as [_ | Hpos]; [| lia].
  destruct ((0 <=? i + Z.of_nat (length l)) && (i + Z.of_nat (length l) <? Z.of_nat (length l)))
    eqn:E; [reflexivity | lia].
Qed.

(** The vector of a square the parser accepts. *)
Lemma get_vector_representation_parsed (position : string) (row col : Z) :
  algebraic_to_coordinates __init__ position = Ok (row, col) ->
  get_vector_representation __init__ position
  = Ok (<[Z.to_nat ((row * 8 + col) mod 64) := 1%float]> (replicate 64 0%float)).
Proof.
  intros Hparse.
  destruct (algebraic_to_coordinates_Ok_inv position row col Hparse) as [Hrow Hcol].
  unfold get_vector_representation. rewrite Hparse. cbn [mbind result_bind].
  unfold np_zeros.
  destruct (Z.ltb_spec (row * 8 + col) 0) as [Hneg | Hpos].
  - rewrite list_setitem_neg by (rewrite length_replicate; lia).
    rewrite length_replicate. do 3 f_equal.
    apply (Z.mod_unique _ _ (-1)); lia.
  - rewrite list_setitem_in by (rewrite length_replicate; lia).
    do 3 f_equal. symmetry. apply Z.mod_small. lia.
Qed.

(** On every square the parser accepts, [get_vector_representation] returns
    normally a vector of length 64 that holds 1 at index
    [(row * 8 + col) mod 64] and 0 elsewhere: the index of a row [-1] or
    [-2] counts from the end of the array, and no [IndexError] is raised. *)
Theorem vector_representation_parsed (position : string) (row col : Z) :
  algebraic_to_coordinates __init__ position = Ok (row, col) ->
  exists v,
    get_vector_representation __init__ position = Ok v /\
    length v = 64%nat /\
    v !! Z.to_nat ((row * 8 + col) mod 64) = Some 1%float /\
    (forall k, (k < 64)%nat -> k <> Z.to_nat ((row * 8 + col) mod 64) ->
               v !! k = Some 0%float).
Proof.
  intros Hparse. rewrite (get_vector_representation_parsed position row col Hparse).
  eexists. split; [reflexivity |].
  assert (Hidx : (Z.to_nat ((row * 8 + col) mod 64) < 64)%nat).
  { pose proof (Z.mod_pos_bound (row * 8 + col) 64 eq_refl). lia. }
  split; [rewrite length_insert; apply length_replicate |]. split.
  - apply list_lookup_insert_eq. rewrite length_replicate. exact Hidx.
  - intros k Hk Hne. rewrite list_lookup_insert_ne by congruence.
    apply lookup_replicate_2, Hk.
Qed.

Lemma vector_representation_parsed_witness :
  exists v,
    get_vector_representation __init__ "h8" = Ok v /\
    length v = 64%nat /\
    v !! Z.to_nat ((-1 * 8 + 7) mod 64) = Some 1%float /\
    (forall k, (k < 64)%nat -> k <> Z.to_nat ((-1 * 8 + 7) mod 64) ->
               v !! k = Some 0%float).
Proof. apply (vector_representation_parsed "h8" (-1) 7). reflexivity. Defined.

(** Parsing a well-formed square and printing the pair gives the square
    back. *)
Lemma valid_square_print (square : string) (row col : Z) :
  valid_square square = true ->
  algebraic_to_coordinates __init__ square = Ok (row, col) ->
  coordinates_to_algebraic __init__ row col = Ok square.
Proof.
  intros Hv. apply valid_square_inv in Hv as (f & r & -> & Hf & Hr).
  apply is_file_inv in Hf. apply is_rank_inv in Hr.
  repeat (apply elem_of_cons in Hf as [-> | Hf]); try (inversion Hf; fail);
    repeat (apply elem_of_cons in Hr as [-> | Hr]); try (inversion Hr; fail);
    intros [= <- <-]; reflexivity.
Qed.

Lemma float_one_not_zero : 1%float <> 0%float.
Proof.
  intros H. apply (f_equal (fun x => PrimFloat.eqb x 1)) in H.
  vm_compute in H. discriminate H.
Qed.

(** Two well-formed squares with the same vector are the same square: the
    sixty-four squares get the sixty-four one-hot vectors, those of rank 8
    the last eight. *)
Theorem vector_representation_injective (s1 s2 : string) :
  valid_square s1 = true -> valid_square s2 = true ->
  get_vector_representation __init__ s1 = get_vector_representation __init__ s2 ->
  s1 = s2.
Proof.
  intros Hv1 Hv2 Heq.
  destruct (valid_square_coordinates s1 Hv1) as (r1 & c1 & Hp1 & Hr1 & Hc1).
  destruct (valid_square_coordinates s2 Hv2) as (r2 & c2 & Hp2 & Hr2 & Hc2).
  rewrite (get_vector_representation_parsed s1 r1 c1 Hp1) in Heq.
  rewrite (get_vector_representation_parsed s2 r2 c2 Hp2) in Heq.
  pose proof (length_replicate 64 0%float) as Hlen.
  pose proof (lookup_replicate_2 64 0%float) as Hz.
  set (z := replicate 64 0%float) in *.
  assert (Heq' : <[Z.to_nat ((r1 * 8 + c1) mod 64) := 1%float]> z
                 = <[Z.to_nat ((r2 * 8 + c2) mod 64) := 1%float]> z) by congruence.
  clear Heq.
  pose proof (Z.mod_pos_bound (r1 * 8 + c1) 64 eq_refl) as B1.
  pose proof (Z.mod_pos_bound (r2 * 8 + c2) 64 eq_refl) as B2.
  assert (Hk : Z.to_nat ((r1 * 8 + c1) mod 64) = Z.to_nat ((r2 * 8 + c2) mod 64)).
  { destruct (Nat.eq_dec (Z.to_nat ((r1 * 8 + c1) mod 64))
                         (Z.to_nat ((r2 * 8 + c2) mod 64))) as [E | Hne]; [exact E |].
    exfalso. apply float_one_not_zero.
    assert (H1 : <[Z.to_nat ((r1 * 8 + c1) mod 64) := 1%float]> z
                 !! Z.to_nat ((r1 * 8 + c1) mod 64) = Some 1%float)
      by (apply list_lookup_insert_eq; lia).
    rewrite Heq', list_lookup_insert_ne in H1 by congruence.
    rewrite Hz in H1 by lia. congruence. }
  assert (Hrc : r1 = r2 /\ c1 = c2) by (Z.to_euclidean_division_equations; lia).
  destruct Hrc as [<- <-].
  pose proof (valid_square_print s1 r1 c1 Hv1 Hp1) as E1.
  pose proof (valid_square_print s2 r1 c1 Hv2 Hp2) as E2.
  congruence.
Qed.

Lemma vector_representation_injective_witness : "e4"%string = "e4"%string.
Proof. apply (vector_representation_injective "e4" "e4"); reflexivity. Defined.

(** ** How far the two converters are inverse *)

(** Printing a pair and parsing the result gives the pair back exactly for
    the rows [-2..7] and the columns [0..7]: a column of [-8..-1] comes back
    as a column of [0..7], a row above 7 prints a minus sign that the parser
    rejects, and a row below [-2] prints a rank of several digits of which
    the parser reads the first. *)
Theorem print_then_parse_iff (row col : Z) :
  coordinates_to_algebraic __init__ row col ≫= algebraic_to_coordinates __init__
    = Ok (row, col)
  <-> -2 <= row <= 7 /\ 0 <= col < 8.
Proof.
  split.
  - destruct (coordinates_to_algebraic __init__ row col) as [sq | e]; [| discriminate].
    cbn [mbind result_bind]. apply algebraic_to_coordinates_Ok_inv.
  - intros [Hrow Hcol].
    destruct (print_then_parse_origin row col Hrow Hcol) as (sq & -> & Hback).
    exact Hback.
Qed.

(** The printer against the board's own table of ranks: on the board, the
    rank printed for row [r] is the table's entry for row [r + 1], never its
    entry for row [r]; for row 7 it is the digit 0, which the table does not
    hold. *)
Theorem printed_rank_is_next_row (row col : Z) :
  0 <= row < 8 -> 0 <= col < 8 ->
  exists f r,
    files __init__ !! Z.to_nat col = Some f /\
    coordinates_to_algebraic __init__ row col = Ok (String f (String r EmptyString)) /\
    ranks __init__ !! Z.to_nat row <> Some r /\
    (if row =? 7 then r = "0"%char /\ r ∉ ranks __init__
     else ranks __init__ !! Z.to_nat (row + 1) = Some r).
Proof.
  intros Hrow Hcol. enum_board row; enum_board col;
    (eexists _, _; split; [reflexivity |]; split; [reflexivity |];
     split; [discriminate |]; cbn [Z.eqb Pos.eqb]; try reflexivity).
  all: split; [reflexivity |]; intros Hin;
    repeat (apply elem_of_cons in Hin as [Hin | Hin]; [discriminate Hin |]);
    inversion Hin.
Qed.

Lemma printed_rank_is_next_row_witness :
  exists f r,
    files __init__ !! Z.to_nat 4 = Some f /\
    coordinates_to_algebraic __init__ 3 4 = Ok (String f (String r EmptyString)) /\
    ranks __init__ !! Z.to_nat 3 <> Some r /\
    (if 3 =? 7 then r = "0"%char /\ r ∉ ranks __init__
     else ranks __init__ !! Z.to_nat (3 + 1) = Some r).
Proof. apply (printed_rank_is_next_row 3 4); lia. Defined.

(** ** More on the distances *)

Lemma float_eq_eqb (x y : float) : x = y -> PrimFloat.eqb y y = true -> PrimFloat.eqb x y = true.
Proof. intros -> H. exact H. Qed.

(** Every entry of the distance matrix is at least 0, and an entry is 0
    exactly on the diagonal: two different squares are never at distance
    0. *)
Theorem distance_zero_iff_same_square :
  exists d,
    get_distance_matrix __init__ = Ok d /\
    forall i j, 0 <= i < 64 -> 0 <= j < 64 ->
      exists x, entry d i j = Some x /\
                PrimFloat.leb 0 x = true /\
                (x = 0%float <-> i = j).
Proof.
  exists distance_table. split; [apply get_distance_matrix_table |].
  assert (Hchk : forallb (fun ij =>
                   let x := np_sqrt (squared_distance ij.1 ij.2) in
                   PrimFloat.leb 0 x && Bool.eqb (PrimFloat.eqb x 0) (ij.1 =? ij.2))
                   (list_prod (seqZ 0 64) (seqZ 0 64)) = true)
    by (vm_compute; reflexivity).
  intros i j Hi Hj. exists (np_sqrt (squared_distance i j)).
  split; [apply distance_table_entry; assumption |].
  rewrite forallb_forall in Hchk.
  assert (Hin : In (i, j) (list_prod (seqZ 0 64) (seqZ 0 64)))
    by (apply in_prod; apply list_elem_of_In, elem_of_seqZ; lia).
  specialize (Hchk (i, j) Hin). cbn [fst snd] in Hchk. cbv zeta in Hchk.
  apply andb_true_iff in Hchk as [Hle Heq]. apply eqb_prop in Heq.
  split; [exact Hle |]. split.
  - intros H0. pose proof (float_eq_eqb _ _ H0 eq_refl) as Heq'.
    rewrite Heq in Heq'. lia.
  - intros <-. rewrite squared_distance_diag. reflexivity.
Qed.

(** The table of distances from ["e4"] that the heat map draws is row 28 of
    the distance matrix, cell [(i, j)] being its entry [i * 8 + j]; its only
    zero is the cell of row 3 and column 4. *)
Theorem heatmap_is_a_row_of_the_distance_matrix :
  exists h d,
    heatmap_distances = Ok h /\
    get_distance_matrix __init__ = Ok d /\
    forall i j, 0 <= i < 8 -> 0 <= j < 8 ->
      entry h i j = entry d 28 (i * 8 + j) /\
      (entry h i j = Some 0%float <-> i = 3 /\ j = 4).
Proof.
  eexists _, distance_table. split; [vm_compute; reflexivity |].
  split; [apply get_distance_matrix_table |].
  intros i j Hi Hj. enum_board i; enum_board j;
    (split; [vm_compute; reflexivity |]);
    (split; [intros H; first [split; reflexivity | exfalso;
                               apply (f_equal (fun o => match o with
                                                        | Some x => PrimFloat.eqb x 0
                                                        | None => false
                                                        end)) in H;
                               vm_compute in H; discriminate H]
            | intros [H3 H4]; first [reflexivity | discriminate H3 | discriminate H4]]).
Qed.

(** * The parser on strings of any code points *)

(** Case analysis on the comparisons of code points. *)
Ltac case_codes :=
  repeat match goal with
         | |- context [(?a <=? ?b)%N] => destruct (N.leb_spec a b)
         | H : context [(?a <=? ?b)%N] |- _ => destruct (N.leb_spec a b)
         end;
  cbn [andb] in *.

Lemma codes_cons (c : ascii) (s : string) : codes (String c s) = N_of_ascii c :: codes s.
Proof. reflexivity. Qed.

Lemma list_index_code_ascii (l : list ascii) (x : ascii) :
  list_index_code l (N_of_ascii x) = list_index l x.
Proof.
  induction l as [| y l IH]; cbn [list_index_code list_index]; [reflexivity |].
  rewrite IH. destruct (Ascii.eqb_spec y x) as [-> | Hne].
  - rewrite N.eqb_refl. reflexivity.
  - destruct (N.eqb_spec (N_of_ascii y) (N_of_ascii x)) as [E | _]; [| reflexivity].
    exfalso. apply Hne.
    rewrite <- (ascii_N_embedding y), <- (ascii_N_embedding x), E. reflexivity.
Qed.

(** [files.index] on any code point: the file letters, at their places. *)
Lemma list_index_code_files (f : N) :
  list_index_code (files __init__) f
  = if is_file_code f then Ok (Z.of_N f - 97) else Raise ValueError.
Proof.
  unfold is_file_code. cbn [files __init__ list_index_code].
  repeat match goal with
         | |- context [(N_of_ascii ?c =? f)%N] =>
           let v := eval vm_compute in (N_of_ascii c) in
           change (N_of_ascii c) with v;
           destruct (N.eqb_spec v f) as [<- | ?]; [reflexivity |]
         end.
  case_codes; first [reflexivity | exfalso; lia].
Qed.

Lemma decimal_ascii_arabic_latin1 (c : N) :
  (c < 256)%N ->
  decimal_ascii_arabic c
  = if (48 <=? c)%N && (c <=? 57)%N then Some (Z.of_N c - 48) else None.
Proof.
  intros Hc. unfold decimal_ascii_arabic.
  case_codes; first [reflexivity | exfalso; lia].
Qed.

Lemma decimal_ascii_arabic_value (c : N) (d : Z) :
  decimal_ascii_arabic c = Some d -> 0 <= d <= 9.
Proof.
  unfold decimal_ascii_arabic.
  case_codes; intros Hd; first [discriminate Hd | injection Hd as <-; lia].
Qed.

Section UnicodeDigits.

(** The interpreter's table of the decimal digits, and what every version of
    the Unicode database makes true of it. *)
Variable decimal : N -> option Z.

Hypothesis decimal_latin1 : forall c, (c < 256)%N ->
  decimal c = if (48 <=? c)%N && (c <=? 57)%N then Some (Z.of_N c - 48) else None.

Hypothesis decimal_value : forall c d, decimal c = Some d -> 0 <= d <= 9.

Lemma int_of_code_ascii (c : ascii) : int_of_code decimal (N_of_ascii c) = int_of_char c.
Proof.
  unfold int_of_code, int_of_char, code.
  rewrite (decimal_latin1 _ (N_ascii_bounded c)).
  destruct ((48 <=? Z.of_N (N_of_ascii c)) && (Z.of_N (N_of_ascii c) <=? 57)) eqn:E2;
    case_codes; first [reflexivity | exfalso; lia].
Qed.

(** On the codes of a [string], the parser of any code points is the parser
    of [string]s. *)
Lemma algebraic_to_coordinates_unicode_codes (s : string) :
  algebraic_to_coordinates_unicode decimal __init__ (codes s)
  = algebraic_to_coordinates __init__ s.
Proof.
  destruct s as [| f [| r rest]]; [reflexivity | reflexivity |].
  rewrite algebraic_to_coordinates_cons, !codes_cons.
  unfold algebraic_to_coordinates_unicode, ustr_getitem.
  cbn [lookup list_lookup mbind result_bind].
  rewrite list_index_code_ascii, int_of_code_ascii. reflexivity.
Qed.

(** What the parser does on a string of at least two code points. *)
Lemma algebraic_to_coordinates_unicode_cons (f r : N) (rest : list N) :
  algebraic_to_coordinates_unicode decimal __init__ (f :: r :: rest)
  = if is_file_code f
    then match decimal r with
         | Some d => Ok (8 - d - 1, Z.of_N f - 97)
         | None => Raise ValueError
         end
    else Raise ValueError.
Proof.
  unfold algebraic_to_coordinates_unicode, ustr_getitem.
  cbn [lookup list_lookup mbind result_bind].
  rewrite list_index_code_files. unfold int_of_code.
  destruct (is_file_code f); [| reflexivity].
  destruct (decimal r); reflexivity.
Qed.

(** C3, amended.  The parser fails exactly when the input has fewer than two
    characters, or its first character is not a letter ['a'..'h'], or its
    second character is not a decimal digit that [int] converts; on the code
    points below 256 these digits are ['0'..'9'].  So it fails on ["z9"], it
    returns normally on every well-formed square, and a rank digit outside
    ['1'..'8'], ASCII or not, does not make it fail. *)
Theorem algebraic_to_coordinates_errors (square : list N) (s : string) :
  (raises (algebraic_to_coordinates_unicode decimal __init__ square)
   <-> parses_unicode decimal square = false) /\
  (returns (algebraic_to_coordinates_unicode decimal __init__ square)
   <-> parses_unicode decimal square = true) /\
  (raises (algebraic_to_coordinates_unicode decimal __init__ (codes s))
   <-> parses s = false) /\
  raises (algebraic_to_coordinates_unicode decimal __init__ (codes "z9")) /\
  (valid_square s = true ->
   returns (algebraic_to_coordinates_unicode decimal __init__ (codes s))).
Proof.
  assert (Hcases :
    (parses_unicode decimal square = false /\
     raises (algebraic_to_coordinates_unicode decimal __init__ square)) \/
    (parses_unicode decimal square = true /\
     returns (algebraic_to_coordinates_unicode decimal __init__ square))).
  { destruct square as [| f [| r rest]];
      [left; split; [reflexivity | exists IndexError; reflexivity] ..|].
    rewrite algebraic_to_coordinates_unicode_cons. cbn [parses_unicode].
    destruct (is_file_code f); [| left; split; [reflexivity | exists ValueError; reflexivity]].
    destruct (decimal r) as [d |].
    - right. split; [reflexivity | eexists; reflexivity].
    - left. split; [reflexivity | exists ValueError; reflexivity]. }
  split; [| split; [| split; [| split]]].
  - destruct Hcases as [[Hp Hr] | [Hp [rc Hrc]]]; rewrite Hp.
    + split; [reflexivity | intros _; exact Hr].
    + split; [intros [e He]; congruence | discriminate].
  - destruct Hcases as [[Hp [e He]] | [Hp Hr]]; rewrite Hp.
    + split; [intros [rc Hrc]; congruence | discriminate].
    + split; [reflexivity | intros _; exact Hr].
  - rewrite algebraic_to_coordinates_unicode_codes.
    apply (proj1 (algebraic_to_coordinates_raises_iff s)).
  - rewrite algebraic_to_coordinates_unicode_codes. exists ValueError. reflexivity.
  - intros Hv. rewrite algebraic_to_coordinates_unicode_codes.
    apply algebraic_to_coordinates_parses, valid_square_parses, Hv.
Qed.

(** The parser reads two characters only.  Whenever it returns a pair,
    printing that pair gives the first character of the input followed by
    the ASCII digit for the value of the second; when the second character is
    below code point 256 (so one of ['0'..'9'], 0 and 9 included), that is the
    first two characters of the input. *)
Theorem parse_then_print_prefix (square : list N) (row col : Z) :
  algebraic_to_coordinates_unicode decimal __init__ square = Ok (row, col) ->
  exists f r rest d printed,
    square = f :: r :: rest /\
    decimal r = Some d /\
    coordinates_to_algebraic __init__ row col = Ok printed /\
    codes printed = [f; (48 + Z.to_N d)%N] /\
    ((r < 256)%N -> codes printed = take 2 square).
Proof.
  intros Hparse.
  destruct square as [| f [| r rest]]; try discriminate Hparse.
  rewrite algebraic_to_coordinates_unicode_cons in Hparse.
  destruct (is_file_code f) eqn:Hf; [| discriminate Hparse].
  destruct (decimal r) as [d |] eqn:Hd; [| discriminate Hparse].
  injection Hparse as <- <-.
  pose proof (decimal_value r d Hd) as Hrange.
  assert (Hprint : exists printed,
            coordinates_to_algebraic __init__ (8 - d - 1) (Z.of_N f - 97) = Ok printed /\
            codes printed = [f; (48 + Z.to_N d)%N]).
  { unfold is_file_code in Hf.
    assert (Hc : 0 <= Z.of_N f - 97 < 8) by (case_codes; first [discriminate Hf | lia]).
    remember (Z.of_N f - 97) as c eqn:Ec.
    assert (Ef : f = (97 + Z.to_N c)%N) by lia.
    rewrite Ef. clear Ec Ef Hf.
    assert (Hd' : 0 <= d < 8 \/ d = 8 \/ d = 9) by lia.
    destruct Hd' as [Hd' | [-> | ->]]; [enum_board d | |]; enum_board c;
      eexists; split; reflexivity. }
  destruct Hprint as (printed & Hp & Hc).
  exists f, r, rest, d, printed. repeat split; try assumption; try reflexivity.
  intros Hr. rewrite Hc. cbn [take]. do 2 f_equal.
  rewrite (decimal_latin1 r Hr) in Hd.
  case_codes; first [discriminate Hd | injection Hd as <-; lia].
Qed.

End UnicodeDigits.

Lemma algebraic_to_coordinates_errors_witness :
  returns (algebraic_to_coordinates_unicode decimal_ascii_arabic __init__ [97; 1635]%N) /\
  raises (algebraic_to_coordinates_unicode decimal_ascii_arabic __init__ (codes "z9")) /\
  raises (algebraic_to_coordinates_unicode decimal_ascii_arabic __init__ (codes "e")) /\
  returns (algebraic_to_coordinates_unicode decimal_ascii_arabic __init__ (codes "a9")) /\
  returns (algebraic_to_coordinates_unicode decimal_ascii_arabic __init__ (codes "e4")).
Proof.
  pose proof (algebraic_to_coordinates_errors decimal_ascii_arabic
                decimal_ascii_arabic_latin1) as H.
  split; [| split; [| split; [| split]]].
  - apply (proj1 (proj2 (H [97; 1635]%N EmptyString))). reflexivity.
  - apply (proj1 (proj2 (proj2 (proj2 (H [] EmptyString))))).
  - apply (proj1 (proj2 (proj2 (H [] "e")))). reflexivity.
  - apply (proj1 (proj2 (H (codes "a9") EmptyString))). reflexivity.
  - apply (proj2 (proj2 (proj2 (proj2 (H [] "e4"))))). reflexivity.
Defined.

Lemma parse_then_print_prefix_witness :
  exists f r rest d printed,
    [97; 1635; 43]%N = f :: r :: rest /\
    decimal_ascii_arabic r = Some d /\
    coordinates_to_algebraic __init__ 4 0 = Ok printed /\
    codes printed = [f; (48 + Z.to_N d)%N] /\
    ((r < 256)%N -> codes printed = take 2 [97; 1635; 43]%N).
Proof.
  apply (parse_then_print_prefix decimal_ascii_arabic decimal_ascii_arabic_latin1
           decimal_ascii_arabic_value [97; 1635; 43]%N 4 0).
  reflexivity.
Defined.
